(** * Memory search over stored messages (package postgres, searchMessages)

    A shallow embedding of the message-search path of the store:
    [searchMessages] and its helpers, together with the payload and result
    records of package models.  The collaborators the search talks to (the
    embedding provider, the SQL engine behind bun, the MMR routine of package
    search, the JSON codec and the filter-tree compiler [parseJSONQuery]) are
    not part of the embedded files; they are parameters of the model.

    Conventions.
    - Go [int] is a 64-bit two's-complement integer: a [Z] with the
      wrap-around of [*] written out ([int_mul]).
    - [float32] and [float64] are IEEE 754 values in the style of
      [SpecFloat]; [math.IsNaN] is [f != f].
    - A Go function returning [(T, error)] whose callers look at the value
      only when the error is nil is a [result T].
    - A run-time panic (index out of range) is an outcome of its own.
    - The payload behind the [query] pointer and the bun query under
      construction are mutable objects; they live in a [Store], and the
      calls made to the collaborators are recorded there in order. *)

From Stdlib Require Import ZArith List String Bool Lia.
From Stdlib Require Import Floats.SpecFloat.
From stdpp Require Import base option list strings gmap.

Local Open Scope Z_scope.
Local Set Warnings "-register-all".

(** ** Numbers *)

Module GoInt.

Definition min_int : Z := - 2 ^ 63.
Definition max_int : Z := 2 ^ 63 - 1.

Definition in_range (z : Z) : Prop := min_int <= z <= max_int.

(** Two's-complement reduction of a mathematical integer to [int]. *)
Definition wrap (z : Z) : Z := (z + 2 ^ 63) mod 2 ^ 64 - 2 ^ 63.

(** Go's [*] on [int]. *)
Definition int_mul (a b : Z) : Z := wrap (a * b).

(** The conversion [int32(n)] of an [int]: its low 32 bits. *)
Definition to_int32 (z : Z) : Z := (z + 2 ^ 31) mod 2 ^ 32 - 2 ^ 31.

End GoInt.

Module GoFloat.

Definition float32 : Type := spec_float.
Definition float64 : Type := spec_float.

(** [==] on floats: IEEE comparison, false as soon as a NaN is involved,
    true between the two zeros. *)
Definition feq (a b : spec_float) : bool := SFeqb a b.

(** math.IsNaN: [return f != f]. *)
Definition IsNaN (f : float64) : bool := negb (feq f f).

Definition zero : spec_float := S754_zero false.

(** binary32 values *)
Definition f32_half : float32 := S754_finite false 8388608 (-24).
Definition f32_one : float32 := S754_finite false 8388608 (-23).

(** binary32 arithmetic *)
Definition f32_mul : float32 -> float32 -> float32 := SFmul 24 128.
Definition f32_add : float32 -> float32 -> float32 := SFadd 24 128.

(** The conversion [float64(x)] of a [float32]: the same number, with a
    binary64 mantissa. *)
Definition f64_of_f32 (x : float32) : float64 :=
  match x with
  | S754_finite s m e => binary_normalize 53 1024 (cond_Zopp s (Zpos m)) e s
  | _ => x
  end.

(** binary64 arithmetic *)
Definition f64_mul : float64 -> float64 -> float64 := SFmul 53 1024.
Definition f64_add : float64 -> float64 -> float64 := SFadd 53 1024.
Definition f64_opp : float64 -> float64 := SFopp.
Definition f64_valid : float64 -> bool := valid_binary 53 1024.
Definition f64_one : float64 := S754_finite false 4503599627370496 (-52).
Definition f64_minus_one : float64 := S754_finite true 4503599627370496 (-52).

End GoFloat.

Import GoInt GoFloat.

(** ** Errors *)

(** Go [error] values: [errors.New], [store.NewStorageError] (a message and
    the wrapped original error, nil when there is none), and the errors the
    collaborators hand back. *)
Inductive error : Type :=
| errors_New (text : string)
| StorageError (message : string) (originalError : option error)
| ForeignError (text : string).

Definition NewStorageError (message : string) (originalError : option error) : error :=
  StorageError message originalError.

Inductive result (A : Type) : Type :=
| Ok (a : A)
| Err (e : error).
Arguments Ok {A} a.
Arguments Err {A} e.

(** A call either returns or panics. *)
Inductive outcome (A : Type) : Type :=
| Done (a : A)
| Panic (msg : string).
Arguments Done {A} a.
Arguments Panic {A} msg.

(** ** package models *)

Definition SearchType : Type := string.
Definition SearchTypeSimilarity : SearchType := "similarity".
Definition SearchTypeMMR : SearchType := "mmr".

Definition DefaultMemorySearchLimit : Z := 10.

(** Modelled from the spec: the constant DefaultMMRLambda is declared in a
    file of package postgres that is not among the embedded ones; section 3
    of the specification gives it as a fixed constant between 0 and 1 with
    source value 0.5. *)
Definition DefaultMMRLambda : float32 := f32_half.

Inductive JSONQuery : Type :=
| Build_JSONQuery (JSONPath : string) (And Or : list JSONQuery).

Definition Vector : Type := list float32.

(** ** The model, over its collaborators *)

Section Search.

(** Types of package models and of the Go runtime that the search only
    passes around. *)
Context {AppState EmbeddingModel Message Summary Value : Type}.

Record MemorySearchResult : Type := {
  Message_ : option Message;
  Summary_ : option Summary;
  ResultMetadata : gmap string Value;
  Dist : float64;
  Embedding : list float32
}.

Record MemorySearchPayload : Type := {
  Text : string;
  Metadata : gmap string Value;
  Type_ : SearchType;
  MMRLambda : float32
}.

Definition set_MMRLambda (p : MemorySearchPayload) (l : float32) : MemorySearchPayload :=
  {| Text := Text p; Metadata := Metadata p; Type_ := Type_ p; MMRLambda := l |}.

(** *** The bun query builder

    A select query is what its builder methods have accumulated.  Every
    method works on the receiver in place and returns it; [Where] joins
    its condition to the earlier ones with AND.  The limit is an [int32],
    0 for none; the rendered statement has a LIMIT clause only when it is
    positive. *)

Inductive Arg : Type :=
| ArgString (s : string)
| ArgValue (v : Value)
| ArgVector (v : Vector).

Record QueryWithArgs : Type := { Query : string; Args : list Arg }.

Inductive WhereClause : Type :=
| WhereCond (sep : string) (cond : QueryWithArgs)
| WhereGroup (sep : string) (group : list WhereClause).

Record JoinClause : Type := { JoinExpr : QueryWithArgs; JoinOnConds : list WhereClause }.

Record SelectQuery : Type := {
  tables : list QueryWithArgs;
  joins : list JoinClause;
  columns : list QueryWithArgs;
  wheres : list WhereClause;
  orders : list string;
  limit_ : Z
}.

Definition NewSelect : SelectQuery :=
  {| tables := []; joins := []; columns := []; wheres := []; orders := []; limit_ := 0 |}.

Definition TableExpr (query : string) (q : SelectQuery) : SelectQuery :=
  {| tables := tables q ++ [{| Query := query; Args := [] |}]; joins := joins q;
     columns := columns q; wheres := wheres q; orders := orders q; limit_ := limit_ q |}.

Definition Join (query : string) (q : SelectQuery) : SelectQuery :=
  {| tables := tables q;
     joins := joins q ++ [{| JoinExpr := {| Query := query; Args := [] |}; JoinOnConds := [] |}];
     columns := columns q; wheres := wheres q; orders := orders q; limit_ := limit_ q |}.

(** [JoinOn] attaches the condition to the join added last. *)
Definition JoinOn (cond : string) (q : SelectQuery) : SelectQuery :=
  let on_last (j : JoinClause) :=
    {| JoinExpr := JoinExpr j;
       JoinOnConds := JoinOnConds j ++ [WhereCond " AND " {| Query := cond; Args := [] |}] |} in
  {| tables := tables q;
     joins := match List.rev (joins q) with
              | [] => []
              | j :: earlier => List.rev earlier ++ [on_last j]
              end;
     columns := columns q; wheres := wheres q; orders := orders q; limit_ := limit_ q |}.

Definition ColumnExpr (query : string) (args : list Arg) (q : SelectQuery) : SelectQuery :=
  {| tables := tables q; joins := joins q;
     columns := columns q ++ [{| Query := query; Args := args |}];
     wheres := wheres q; orders := orders q; limit_ := limit_ q |}.

Definition Where (query : string) (args : list Arg) (q : SelectQuery) : SelectQuery :=
  {| tables := tables q; joins := joins q; columns := columns q;
     wheres := wheres q ++ [WhereCond " AND " {| Query := query; Args := args |}];
     orders := orders q; limit_ := limit_ q |}.

Definition Order (order : string) (q : SelectQuery) : SelectQuery :=
  {| tables := tables q; joins := joins q; columns := columns q; wheres := wheres q;
     orders := orders q ++ [order]; limit_ := limit_ q |}.

(** [Limit] keeps [int32(n)]. *)
Definition Limit (n : Z) (q : SelectQuery) : SelectQuery :=
  {| tables := tables q; joins := joins q; columns := columns q; wheres := wheres q;
     orders := orders q; limit_ := to_int32 n |}.

(** The LIMIT clause of the statement bun renders: present only for a
    positive limit. *)
Definition limit_clause (q : SelectQuery) : option Z :=
  if 0 <? limit_ q then Some (limit_ q) else None.

(** *** Collaborators

    [GetEmbeddingModel], [EmbedTexts]: the embedding provider (package
    llms).  [Scan]: the SQL engine running a select query for bun.
    [MaximalMarginalRelevance]: package search, the indices of the chosen
    candidates.  [json_Marshal], [json_Unmarshal]: encoding/json on the
    "where" entry of the metadata.  [parseJSONQuery]: the filter-tree
    compiler of package postgres (another file), given as the query object
    it leaves behind.  [DefaultMMRMultiplier]: a constant of package
    postgres (another file). *)
Record Collaborators : Type := {
  GetEmbeddingModel : AppState -> string -> result EmbeddingModel;
  EmbedTexts : AppState -> EmbeddingModel -> string -> list string -> result (list Vector);
  Scan : SelectQuery -> result (list MemorySearchResult);
  MaximalMarginalRelevance : Vector -> list Vector -> float32 -> Z -> result (list Z);
  json_Marshal : Value -> result (list Byte.byte);
  json_Unmarshal : list Byte.byte -> result JSONQuery;
  parseJSONQuery : SelectQuery -> JSONQuery -> bool -> string -> SelectQuery;
  DefaultMMRMultiplier : Z
}.

Variable env : Collaborators.

(** *** Store and effects *)

Inductive Call : Type :=
| CallGetEmbeddingModel (documentType : string)
| CallEmbedTexts (documentType : string) (texts : list string)
| CallScan (q : SelectQuery)
| CallMMR (queryEmbedding : Vector) (embeddingList : list Vector) (lambda : float32) (k : Z).

(** [query]: the payload behind the pointer handed to the search, [None]
    for the nil pointer.  [dbQuery]: the bun query object being built.
    [calls]: the calls made to the collaborators so far, oldest first. *)
Record Store : Type := {
  query : option MemorySearchPayload;
  dbQuery : SelectQuery;
  calls : list Call
}.

Definition M (A : Type) : Type := Store -> outcome A * Store.

Definition ret {A} (a : A) : M A := fun s => (Done a, s).

Definition bind {A B} (m : M A) (k : A -> M B) : M B :=
  fun s => match m s with
           | (Done a, s') => k a s'
           | (Panic msg, s') => (Panic msg, s')
           end.

Definition panic {A} (msg : string) : M A := fun s => (Panic msg, s).

Notation "'let*' x := m 'in' k" := (bind m (fun x => k))
  (at level 10, x name, m at level 100, k at level 200).
Notation "'perform' m 'in' k" := (bind m (fun _ => k))
  (at level 10, m at level 100, k at level 200).

(** Reading a field through the [query] pointer. *)
Definition deref {A} (field : MemorySearchPayload -> A) : M A :=
  fun s => match query s with
           | Some p => (Done (field p), s)
           | None => (Panic "invalid memory address or nil pointer dereference", s)
           end.

(** Assigning through the [query] pointer. *)
Definition assign (update : MemorySearchPayload -> MemorySearchPayload) : M unit :=
  fun s => match query s with
           | Some p => (Done tt, {| query := Some (update p); dbQuery := dbQuery s; calls := calls s |})
           | None => (Panic "invalid memory address or nil pointer dereference", s)
           end.

(** A builder method applied to the query object. *)
Definition build (method : SelectQuery -> SelectQuery) : M unit :=
  fun s => (Done tt, {| query := query s; dbQuery := method (dbQuery s); calls := calls s |}).

Definition get_dbQuery : M SelectQuery := fun s => (Done (dbQuery s), s).

Definition get_query : M (option MemorySearchPayload) := fun s => (Done (query s), s).

Definition record (c : Call) : M unit :=
  fun s => (Done tt, {| query := query s; dbQuery := dbQuery s; calls := calls s ++ [c] |}).

(** [l[i]] on a slice. *)
Definition index {A} (l : list A) (i : Z) : M A :=
  if (0 <=? i) && (i <? Z.of_nat (length l))
  then match l !! Z.to_nat i with
       | Some a => ret a
       | None => panic "index out of range"
       end
  else panic "index out of range".

Fixpoint for_each {A B} (f : A -> M B) (l : list A) : M (list B) :=
  match l with
  | [] => ret []
  | a :: l' => let* b := f a in let* bs := for_each f l' in ret (b :: bs)
  end.

(** Calls to the collaborators leave a record in the store. *)
Definition call_GetEmbeddingModel (appState : AppState) (documentType : string)
  : M (result EmbeddingModel) :=
  perform record (CallGetEmbeddingModel documentType) in
  ret (GetEmbeddingModel env appState documentType).

Definition call_EmbedTexts (appState : AppState) (model : EmbeddingModel)
    (documentType : string) (texts : list string) : M (result (list Vector)) :=
  perform record (CallEmbedTexts documentType texts) in
  ret (EmbedTexts env appState model documentType texts).

Definition call_Scan : M (result (list MemorySearchResult)) :=
  let* q := get_dbQuery in
  perform record (CallScan q) in
  ret (Scan env q).

Definition call_MaximalMarginalRelevance (queryEmbedding : Vector)
    (embeddingList : list Vector) (lambda : float32) (k : Z) : M (result (list Z)) :=
  perform record (CallMMR queryEmbedding embeddingList lambda k) in
  ret (MaximalMarginalRelevance env queryEmbedding embeddingList lambda k).

(** *** The functions of the search path *)

Definition buildMessagesSelectQuery : M unit :=
  perform build (fun _ => NewSelect) in
  perform build (TableExpr "message_embedding AS me") in
  perform build (Join "JOIN message AS m") in
  perform build (JoinOn "me.message_uuid = m.uuid") in
  perform build (ColumnExpr "m.uuid AS message__uuid" []) in
  perform build (ColumnExpr "m.created_at AS message__created_at" []) in
  perform build (ColumnExpr "m.role AS message__role" []) in
  perform build (ColumnExpr "m.content AS message__content" []) in
  perform build (ColumnExpr "m.metadata AS message__metadata" []) in
  perform build (ColumnExpr "m.token_count AS message__token_count" []) in
  let* type := deref Type_ in
  if String.eqb type SearchTypeMMR
  then build (ColumnExpr "me.embedding AS embedding" [])
  else ret tt.

(** addMessagesVectorColumn adds a column to the query that calculates the
    distance between the query text and the message embedding. *)
Definition addMessagesVectorColumn (appState : AppState) (queryText : string)
  : M (result Vector) :=
  let documentType := "message" in
  let* model := call_GetEmbeddingModel appState documentType in
  match model with
  | Err err => ret (Err (NewStorageError "failed to get message embedding model" (Some err)))
  | Ok model =>
      let* e := call_EmbedTexts appState model documentType [queryText] in
      match e with
      | Err err => ret (Err (NewStorageError "failed to embed query" (Some err)))
      | Ok e =>
          let* vector := index e 0 in
          perform build (ColumnExpr "(embedding <#> ?) * -1 AS dist" [ArgVector vector]) in
          let* e0 := index e 0 in
          ret (Ok e0)
      end
  end.

(** addMessageDateFilters adds date filters to the query. *)
Definition addMessageDateFilters (m : gmap string Value) : M unit :=
  perform
    match m !! "start_date" with
    | Some startDate => build (Where "m.created_at >= ?" [ArgValue startDate])
    | None => ret tt
    end in
  match m !! "end_date" with
  | Some endDate => build (Where "m.created_at <= ?" [ArgValue endDate])
  | None => ret tt
  end.

Definition applyMessagesMetadataFilter (metadata : gmap string Value) : M (result unit) :=
  let* parsed :=
    match metadata !! "where" with
    | Some where_ =>
        match json_Marshal env where_ with
        | Err err => ret (Err (NewStorageError "error marshalling metadata" (Some err)))
        | Ok j =>
            match json_Unmarshal env j with
            | Err err => ret (Err (NewStorageError "error unmarshalling metadata" (Some err)))
            | Ok jq =>
                perform build (fun qb => parseJSONQuery env qb jq false "m") in
                ret (Ok tt)
            end
        end
    | None => ret (Ok tt)
    end in
  match parsed with
  | Err err => ret (Err err)
  | Ok _ =>
      perform addMessageDateFilters metadata in
      ret (Ok tt)
  end.

Definition addMessagesSortQuery (searchText : string) : M unit :=
  if negb (String.eqb searchText "")
  then build (Order "dist DESC")
  else build (Order "m.created_at DESC").

Definition executeMessagesSearchScan : M (result (list MemorySearchResult)) :=
  call_Scan.

(** The loop of filterValidMessageSearchResults: one [append] per kept row. *)
Definition filterValidMessageSearchResults (results : list MemorySearchResult)
    (metadata : gmap string Value) : list MemorySearchResult :=
  fold_left
    (fun filteredResults result =>
       if negb (IsNaN (Dist result)) || (0 <? Z.of_nat (size metadata))
       then filteredResults ++ [result]
       else filteredResults)
    results [].

(** rerankMMR reranks the results using the Maximal Marginal Relevance
    algorithm. *)
Definition rerankMMR (results : list MemorySearchResult) (queryEmbedding : Vector)
    (lambda : float32) (limit : Z) : M (result (list MemorySearchResult)) :=
  let embeddingList := map Embedding results in
  let* rerankedIdxs :=
    call_MaximalMarginalRelevance queryEmbedding embeddingList lambda limit in
  match rerankedIdxs with
  | Err err => ret (Err (NewStorageError "error applying mmr" (Some err)))
  | Ok rerankedIdxs =>
      let* rerankedResults := for_each (fun idx => index results idx) rerankedIdxs in
      ret (Ok rerankedResults)
  end.

Definition searchMessages (appState : option AppState) (sessionID : string) (limit : Z)
  : M (result (list MemorySearchResult)) :=
  let* query_ptr := get_query in
  match query_ptr, appState with
  | None, _ | _, None =>
      ret (Err (NewStorageError "nil query or appState received" None))
  | Some _, Some appState =>
  let* text := deref Text in
  let* metadata := deref Metadata in
  if String.eqb text "" && (Z.of_nat (size metadata) =? 0)
  then ret (Err (NewStorageError "empty query" (Some (errors_New "empty query"))))
  else
  perform buildMessagesSelectQuery in
  let* text := deref Text in
  let* embedded :=
    if negb (String.eqb text "")
    then
      let* text := deref Text in
      addMessagesVectorColumn appState text
    else ret (Ok []) in
  match embedded with
  | Err err => ret (Err (NewStorageError "error adding vector column" (Some err)))
  | Ok queryEmbedding =>
  let* metadata := deref Metadata in
  let* filtered :=
    if 0 <? Z.of_nat (size metadata)
    then
      let* metadata := deref Metadata in
      applyMessagesMetadataFilter metadata
    else ret (Ok tt) in
  match filtered with
  | Err err => ret (Err (NewStorageError "error applying metadata filter" (Some err)))
  | Ok _ =>
  perform build (Where "m.session_id = ?" [ArgString sessionID]) in
  (* Ensure we don't return deleted records. *)
  perform build (Where "m.deleted_at IS NULL" []) in
  (* Add sort and limit. *)
  let* text := deref Text in
  perform addMessagesSortQuery text in
  let limit := if limit =? 0 then DefaultMemorySearchLimit else limit in
  (* If we're using MMR, we need to return more results than the limit so
     we can rerank them. *)
  let* type := deref Type_ in
  perform
    if String.eqb type SearchTypeMMR
    then
      let* lambda := deref MMRLambda in
      perform
        if feq lambda zero
        then assign (fun p => set_MMRLambda p DefaultMMRLambda)
        else ret tt in
      build (Limit (int_mul limit (DefaultMMRMultiplier env)))
    else build (Limit limit) in
  let* results := executeMessagesSearchScan in
  match results with
  | Err err => ret (Err (NewStorageError "memory searchMessages failed" (Some err)))
  | Ok results =>
  let* metadata := deref Metadata in
  let filteredResults := filterValidMessageSearchResults results metadata in
  (* If we're using MMR, rerank the results. *)
  let* type := deref Type_ in
  if String.eqb type SearchTypeMMR
  then
    let* lambda := deref MMRLambda in
    let* reranked := rerankMMR filteredResults queryEmbedding lambda limit in
    match reranked with
    | Err err => ret (Err (NewStorageError "error applying mmr" (Some err)))
    | Ok filteredResults => ret (Ok filteredResults)
    end
  else ret (Ok filteredResults)
  end end end end.

(** *** The distance projection, as PostgreSQL with pgvector evaluates it

    The search only emits the text of the projection; its value on a row
    is computed by the engine.  In pgvector [a <#> b] is the negative
    inner product of the two vectors (accumulated in single precision and
    returned as a double), and [* -1] is a multiplication of doubles. *)

Definition VectorInnerProduct (a b : Vector) : float32 :=
  fold_left (fun distance xy => f32_add distance (f32_mul (fst xy) (snd xy)))
            (combine a b) zero.

Definition inner_product (a b : Vector) : float64 :=
  f64_of_f32 (VectorInnerProduct a b).

Definition vector_negative_inner_product (a b : Vector) : float64 :=
  f64_opp (inner_product a b).

Definition is_dist_projection (c : QueryWithArgs) : bool :=
  String.eqb (Query c) "(embedding <#> ?) * -1 AS dist".

(** The value of the column aliased [dist] of a select query on a row
    whose stored embedding is [embedding]; [None] when the query has no
    such column. *)
Definition dist_of_row (q : SelectQuery) (embedding : Vector) : option float64 :=
  match List.filter is_dist_projection (columns q) with
  | [ {| Query := _; Args := [ArgVector vector] |} ] =>
      Some (f64_mul (vector_negative_inner_product embedding vector) f64_minus_one)
  | _ => None
  end.

(** A search started on a payload: the store holds the payload behind the
    pointer (or nothing, for nil), no query object and no calls yet. *)
Definition start (q : option MemorySearchPayload) : Store :=
  {| query := q; dbQuery := NewSelect; calls := [] |}.

(** *** The stages of the search in closed form

    What each helper leaves in the store and returns, as a function of
    its arguments. *)

Definition selected (type : SearchType) : SelectQuery :=
  let q :=
    ColumnExpr "m.token_count AS message__token_count" []
      (ColumnExpr "m.metadata AS message__metadata" []
        (ColumnExpr "m.content AS message__content" []
          (ColumnExpr "m.role AS message__role" []
            (ColumnExpr "m.created_at AS message__created_at" []
              (ColumnExpr "m.uuid AS message__uuid" []
                (JoinOn "me.message_uuid = m.uuid"
                  (Join "JOIN message AS m"
                    (TableExpr "message_embedding AS me" NewSelect)))))))) in
  if String.eqb type SearchTypeMMR
  then ColumnExpr "me.embedding AS embedding" [] q
  else q.

Definition embedded (appState : AppState) (text : string)
  : outcome (result Vector) :=
  match GetEmbeddingModel env appState "message" with
  | Err err => Done (Err (NewStorageError "failed to get message embedding model" (Some err)))
  | Ok model =>
      match EmbedTexts env appState model "message" [text] with
      | Err err => Done (Err (NewStorageError "failed to embed query" (Some err)))
      | Ok [] => Panic "index out of range"
      | Ok (e0 :: _) => Done (Ok e0)
      end
  end.

Definition embedding_calls (appState : AppState) (text : string) : list Call :=
  match GetEmbeddingModel env appState "message" with
  | Err _ => [CallGetEmbeddingModel "message"]
  | Ok _ => [CallGetEmbeddingModel "message"; CallEmbedTexts "message" [text]]
  end.

Definition with_dist (o : outcome (result Vector)) (q : SelectQuery) : SelectQuery :=
  match o with
  | Done (Ok e0) => ColumnExpr "(embedding <#> ?) * -1 AS dist" [ArgVector e0] q
  | _ => q
  end.

Definition dated (m : gmap string Value) (q : SelectQuery) : SelectQuery :=
  let q :=
    match m !! "start_date" with
    | Some startDate => Where "m.created_at >= ?" [ArgValue startDate] q
    | None => q
    end in
  match m !! "end_date" with
  | Some endDate => Where "m.created_at <= ?" [ArgValue endDate] q
  | None => q
  end.

Definition compiled (metadata : gmap string Value) (q : SelectQuery) : result SelectQuery :=
  match metadata !! "where" with
  | Some where_ =>
      match json_Marshal env where_ with
      | Err err => Err (NewStorageError "error marshalling metadata" (Some err))
      | Ok j =>
          match json_Unmarshal env j with
          | Err err => Err (NewStorageError "error unmarshalling metadata" (Some err))
          | Ok jq => Ok (dated metadata (parseJSONQuery env q jq false "m"))
          end
      end
  | None => Ok (dated metadata q)
  end.

Definition effective_limit (limit : Z) : Z :=
  if limit =? 0 then DefaultMemorySearchLimit else limit.

Definition requested_rows (type : SearchType) (limit : Z) : Z :=
  if String.eqb type SearchTypeMMR
  then int_mul (effective_limit limit) (DefaultMMRMultiplier env)
  else effective_limit limit.

Definition sort_term (text : string) : string :=
  if negb (String.eqb text "") then "dist DESC" else "m.created_at DESC".

Definition session_clause (sessionID : string) : WhereClause :=
  WhereCond " AND " {| Query := "m.session_id = ?"; Args := [ArgString sessionID] |}.

Definition deleted_clause : WhereClause :=
  WhereCond " AND " {| Query := "m.deleted_at IS NULL"; Args := [] |}.

(** The query as lines 58 to 79 finish it. *)
Definition finished (sessionID : string) (limit : Z) (p : MemorySearchPayload)
    (q : SelectQuery) : SelectQuery :=
  Limit (requested_rows (Type_ p) limit)
    (Order (sort_term (Text p))
      (Where "m.deleted_at IS NULL" []
        (Where "m.session_id = ?" [ArgString sessionID] q))).

(** The lambda the reranker is given, and the payload after line 75. *)
Definition defaulted (p : MemorySearchPayload) : MemorySearchPayload :=
  if String.eqb (Type_ p) SearchTypeMMR && feq (MMRLambda p) zero
  then set_MMRLambda p DefaultMMRLambda
  else p.

Definition nonempty (p : MemorySearchPayload) : bool :=
  negb (String.eqb (Text p) "" && (Z.of_nat (size (Metadata p)) =? 0)).

(** The query vector: resolved for a query with text, nil otherwise. *)
Definition resolve (appState : AppState) (p : MemorySearchPayload) : outcome (result Vector) :=
  if negb (String.eqb (Text p) "") then embedded appState (Text p) else Done (Ok []).

Definition resolve_calls (appState : AppState) (p : MemorySearchPayload) : list Call :=
  if negb (String.eqb (Text p) "") then embedding_calls appState (Text p) else [].

(** The query object after lines 41 to 49. *)
Definition projected (appState : AppState) (p : MemorySearchPayload) : SelectQuery :=
  if negb (String.eqb (Text p) "")
  then with_dist (embedded appState (Text p)) (selected (Type_ p))
  else selected (Type_ p).

(** The query object after lines 50 to 56. *)
Definition filtered (p : MemorySearchPayload) (q : SelectQuery) : result SelectQuery :=
  if 0 <? Z.of_nat (size (Metadata p)) then compiled (Metadata p) q else Ok q.

Definition rerank_calls (p : MemorySearchPayload) (limit : Z) (qe : Vector)
    (dbq : SelectQuery) : list Call :=
  match Scan env dbq with
  | Ok rs =>
      if String.eqb (Type_ p) SearchTypeMMR
      then [CallMMR qe
              (map Embedding (filterValidMessageSearchResults rs (Metadata p)))
              (MMRLambda (defaulted p)) (effective_limit limit)]
      else []
  | Err _ => []
  end.

(** The whole search on a non-nil payload with a non-nil state. *)
Definition search_run (a : AppState) (sessionID : string) (limit : Z)
    (p : MemorySearchPayload) : outcome (result (list MemorySearchResult)) * Store :=
  if negb (nonempty p)
  then (Done (Err (NewStorageError "empty query" (Some (errors_New "empty query")))),
        start (Some p))
  else
    let s1 := {| query := Some p; dbQuery := projected a p; calls := resolve_calls a p |} in
    match resolve a p with
    | Panic msg => (Panic msg, s1)
    | Done (Err err) =>
        (Done (Err (NewStorageError "error adding vector column" (Some err))), s1)
    | Done (Ok qe) =>
        match filtered p (projected a p) with
        | Err err =>
            (Done (Err (NewStorageError "error applying metadata filter" (Some err))), s1)
        | Ok mid =>
            let dbq := finished sessionID limit p mid in
            let s2 := {| query := Some (defaulted p); dbQuery := dbq;
                         calls := resolve_calls a p ++ [CallScan dbq] |} in
            match Scan env dbq with
            | Err err =>
                (Done (Err (NewStorageError "memory searchMessages failed" (Some err))), s2)
            | Ok rs =>
                let kept := filterValidMessageSearchResults rs (Metadata p) in
                if String.eqb (Type_ p) SearchTypeMMR
                then
                  let (o, s3) :=
                    rerankMMR kept qe (MMRLambda (defaulted p)) (effective_limit limit) s2 in
                  (match o with
                   | Done (Ok rows) => Done (Ok rows)
                   | Done (Err err) =>
                       Done (Err (NewStorageError "error applying mmr" (Some err)))
                   | Panic msg => Panic msg
                   end, s3)
                else (Done (Ok kept), s2)
            end
        end
    end.

(** Every run, by cases on how far it gets. *)
Inductive run_shape (a : AppState) (sessionID : string) (limit : Z)
    (p : MemorySearchPayload) (st : Store) : Prop :=
| stopped_early :
    query st = Some p ->
    (forall dbq, ~ In (CallScan dbq) (calls st)) ->
    (forall qe embs lambda k, ~ In (CallMMR qe embs lambda k) (calls st)) ->
    run_shape a sessionID limit p st
| reached_storage (qe : Vector) (mid : SelectQuery) (later : list Call) :
    nonempty p = true ->
    resolve a p = Done (Ok qe) ->
    filtered p (projected a p) = Ok mid ->
    query st = Some (defaulted p) ->
    calls st = resolve_calls a p ++ CallScan (finished sessionID limit p mid) :: later ->
    later = rerank_calls p limit qe (finished sessionID limit p mid) ->
    run_shape a sessionID limit p st.

(** The conditions addMessageDateFilters appends for a metadata map. *)
Definition date_clauses (m : gmap string Value) : list WhereClause :=
  match m !! "start_date" with
  | Some startDate =>
      [WhereCond " AND " {| Query := "m.created_at >= ?"; Args := [ArgValue startDate] |}]
  | None => []
  end ++
  match m !! "end_date" with
  | Some endDate =>
      [WhereCond " AND " {| Query := "m.created_at <= ?"; Args := [ArgValue endDate] |}]
  | None => []
  end.

(** The filter compiler works through bun.QueryBuilder, whose methods add
    conditions only: it leaves every other part of the query as it found
    it. *)
Definition compiles_conditions_only : Prop :=
  forall (qb : SelectQuery) (jq : JSONQuery) (isOr : bool) (tablePrefix : string),
    let qb' := parseJSONQuery env qb jq isOr tablePrefix in
    tables qb' = tables qb /\ joins qb' = joins qb /\ columns qb' = columns qb
    /\ orders qb' = orders qb /\ limit_ qb' = limit_ qb.

(** The specification's InvalidQueryError: the storage errors the search
    raises for a nil or an empty query, which the source tells apart from
    its other storage errors by their message. *)
Definition InvalidQueryError (e : error) : bool :=
  match e with
  | StorageError message _ =>
      String.eqb message "empty query"
      || String.eqb message "nil query or appState received"
  | _ => false
  end.

(** ** Properties *)

(** *** Floating-point facts *)

Lemma IsNaN_spec (f : float64) : IsNaN f = true <-> f = S754_nan.
Proof.
  unfold IsNaN, feq, SFeqb.
  destruct f as [s|s| |s m e]; simpl; try (destruct s); simpl;
    rewrite ?Z.compare_refl, ?Pos.compare_cont_refl; simpl; split; congruence.
Qed.

Lemma digits2_pos_xO (p : positive) :
  Zpos (digits2_pos p~0) = Zpos (digits2_pos p) + 1.
Proof. cbn [digits2_pos]. lia. Qed.

Lemma mul_2p52 (m : positive) :
  (m * 4503599627370496)%positive = Pos.iter xO m 52.
Proof. rewrite Pos.mul_comm. reflexivity. Qed.

Lemma digits2_pos_iter_xO (n : nat) (m : positive) :
  Zpos (digits2_pos (Nat.iter n xO m)) = Zpos (digits2_pos m) + Z.of_nat n.
Proof.
  induction n as [|n IH].
  - simpl. lia.
  - change (Nat.iter (S n) xO m) with (xO (Nat.iter n xO m)).
    rewrite digits2_pos_xO, IH. lia.
Qed.

Lemma digits2_pos_shift52 (m : positive) :
  Zpos (digits2_pos (m * 4503599627370496)) = Zpos (digits2_pos m) + 52.
Proof.
  rewrite mul_2p52.
  change (Pos.iter xO m 52) with (Nat.iter 52 xO m).
  apply (digits2_pos_iter_xO 52).
Qed.

Lemma shr_shift52 (m : positive) :
  SpecFloat.iter_pos shr_1 52%positive
    {| shr_m := Zpos (m * 4503599627370496); shr_r := false; shr_s := false |}
  = {| shr_m := Zpos m; shr_r := false; shr_s := false |}.
Proof. rewrite Pos.mul_comm. reflexivity. Qed.

(** Multiplying a well-formed double by -1 flips its sign exactly. *)
Lemma f64_mul_minus_one (x : float64) :
  f64_valid x = true -> f64_mul (f64_opp x) f64_minus_one = x.
Proof.
  destruct x as [s|s| |s m e]; try (destruct s; reflexivity); try reflexivity.
  unfold f64_valid, valid_binary, bounded, canonical_mantissa.
  intros Hb. apply andb_prop in Hb as [Hc Hle].
  apply Z.eqb_eq in Hc.
  unfold f64_mul, f64_opp, f64_minus_one, SFopp, SFmul, binary_round_aux, shr_fexp.
  unfold Zdigits2. rewrite digits2_pos_shift52.
  replace (Z.pos (digits2_pos m) + 52 + (e + -52)) with (Z.pos (digits2_pos m) + e) by lia.
  rewrite Hc.
  replace (e - (e + -52)) with 52 by lia.
  unfold shr_record_of_loc, shr. rewrite shr_shift52.
  cbn [shr_m loc_of_shr_record round_nearest_even].
  replace (e + -52 + 52) with e by lia.
  unfold Zdigits2. rewrite Hc. rewrite Z.sub_diag.
  cbn [shr_m]. rewrite Hle. destruct s; reflexivity.
Qed.

(** *** Running the search symbolically *)

Ltac unfold_run_goal :=
  cbv beta iota zeta delta
    [bind ret panic deref assign build get_dbQuery get_query record
     query dbQuery calls].

Lemma index_store {A} (l : list A) (i : Z) (s s' : Store) (o : outcome A) :
  index l i s = (o, s') -> s' = s.
Proof.
  unfold index. destruct (_ && _); [destruct (l !! _)|]; cbv [ret panic]; congruence.
Qed.

Lemma for_each_index_store {A} (l : list A) (idxs : list Z) (s s' : Store) o :
  for_each (fun idx => index l idx) idxs s = (o, s') -> s' = s.
Proof.
  revert s s' o. induction idxs as [|i idxs IH]; intros s s' o; cbn [for_each].
  - cbv [ret]. congruence.
  - unfold bind. destruct (index l i s) as [[a|msg] s1] eqn:E1.
    + apply index_store in E1. subst s1.
      destruct (for_each _ idxs s) as [[bs|msg] s2] eqn:E2.
      * apply IH in E2. subst. cbv [ret]. congruence.
      * apply IH in E2. congruence.
    + apply index_store in E1. congruence.
Qed.

Lemma buildMessagesSelectQuery_run (s : Store) (p : MemorySearchPayload) :
  query s = Some p ->
  buildMessagesSelectQuery s
  = (Done tt, {| query := Some p; dbQuery := selected (Type_ p); calls := calls s |}).
Proof.
  destruct s as [q d c]. cbn [query calls]. intros ->.
  unfold buildMessagesSelectQuery, selected. unfold_run_goal.
  destruct (String.eqb (Type_ p) SearchTypeMMR); reflexivity.
Qed.

Lemma addMessagesVectorColumn_run (appState : AppState) (text : string) (s : Store) :
  addMessagesVectorColumn appState text s
  = (embedded appState text,
     {| query := query s;
        dbQuery := with_dist (embedded appState text) (dbQuery s);
        calls := calls s ++ embedding_calls appState text |}).
Proof.
  destruct s as [q d c].
  unfold addMessagesVectorColumn, embedded, embedding_calls, with_dist,
    call_GetEmbeddingModel, call_EmbedTexts.
  unfold_run_goal.
  destruct (GetEmbeddingModel env appState "message") as [model|err]; [|reflexivity].
  destruct (EmbedTexts env appState model "message" [text]) as [[|e0 e]|err];
    cbn; unfold_run_goal; rewrite <- ?app_assoc; reflexivity.
Qed.

Lemma addMessageDateFilters_run (m : gmap string Value) (s : Store) :
  addMessageDateFilters m s
  = (Done tt, {| query := query s; dbQuery := dated m (dbQuery s); calls := calls s |}).
Proof.
  destruct s as [q d c]. unfold addMessageDateFilters, dated. unfold_run_goal.
  destruct (m !! "start_date"), (m !! "end_date"); reflexivity.
Qed.

Lemma applyMessagesMetadataFilter_run (metadata : gmap string Value) (s : Store) :
  applyMessagesMetadataFilter metadata s
  = match compiled metadata (dbQuery s) with
    | Ok q => (Done (Ok tt), {| query := query s; dbQuery := q; calls := calls s |})
    | Err err => (Done (Err err), s)
    end.
Proof.
  destruct s as [q d c]. unfold applyMessagesMetadataFilter, compiled.
  cbv beta iota zeta delta [bind].
  destruct (metadata !! "where") as [where_|].
  - destruct (json_Marshal env where_) as [j|err]; [|reflexivity].
    destruct (json_Unmarshal env j) as [jq|err]; [|reflexivity].
    unfold_run_goal. rewrite addMessageDateFilters_run. reflexivity.
  - unfold_run_goal. rewrite addMessageDateFilters_run. reflexivity.
Qed.

Lemma rerankMMR_run (results : list MemorySearchResult) (qe : Vector)
    (lambda : float32) (k : Z) (s : Store) :
  exists o,
    rerankMMR results qe lambda k s
    = (o, {| query := query s; dbQuery := dbQuery s;
             calls := calls s ++ [CallMMR qe (map Embedding results) lambda k] |}).
Proof.
  destruct s as [q d c]. unfold rerankMMR, call_MaximalMarginalRelevance.
  unfold_run_goal.
  destruct (MaximalMarginalRelevance env qe (map Embedding results) lambda k)
    as [idxs|err]; [|eexists; reflexivity].
  destruct (for_each (fun idx => index results idx) idxs
              {| query := q; dbQuery := d;
                 calls := c ++ [CallMMR qe (map Embedding results) lambda k] |})
    as [[rs|msg] s2] eqn:E; apply for_each_index_store in E; subst s2;
    eexists; reflexivity.
Qed.

Lemma embedding_calls_no_scan (a : AppState) (text : string) (dbq : SelectQuery) :
  In (CallScan dbq) (embedding_calls a text) -> False.
Proof.
  unfold embedding_calls. destruct (GetEmbeddingModel env a "message"); cbn [In];
    intuition discriminate.
Qed.

(** One step of a run: reuse what is known about the condition under
    test, or split on it. *)
Ltac step_goal :=
  match goal with
  | E : ?x = _ |- context [match ?x with _ => _ end] => rewrite E
  | |- context [match ?x with _ => _ end] =>
      lazymatch x with
      | context [match _ with _ => _ end] => fail
      | _ => let E := fresh "E" in destruct x eqn:E
      end
  end.

(** Unfold the store operations and the short helpers. *)
Ltac unfold_main_goal :=
  cbv beta iota zeta delta
    [bind ret panic deref assign build get_dbQuery get_query record start
     addMessagesSortQuery executeMessagesSearchScan call_Scan
     query dbQuery calls andb negb].

(** Replace a call to a helper by its closed form. *)
Ltac use_helpers_goal :=
  match goal with
  | |- context [buildMessagesSelectQuery ?s] =>
      erewrite (buildMessagesSelectQuery_run s) by reflexivity
  | |- context [addMessagesVectorColumn ?a ?t ?s] =>
      rewrite (addMessagesVectorColumn_run a t s)
  | |- context [applyMessagesMetadataFilter ?m ?s] =>
      rewrite (applyMessagesMetadataFilter_run m s)
  end.

Lemma searchMessages_run (a : AppState) (sessionID : string) (limit : Z)
    (p : MemorySearchPayload) :
  searchMessages (Some a) sessionID limit (start (Some p))
  = search_run a sessionID limit p.
Proof.
  unfold searchMessages, search_run, nonempty, resolve, resolve_calls, projected,
    filtered, finished, requested_rows, defaulted, effective_limit, sort_term.
  repeat first
    [ progress unfold_main_goal
    | progress cbn [MMRLambda set_MMRLambda Type_ Text Metadata with_dist app]
    | use_helpers_goal
    | step_goal ].
  all: reflexivity.
Qed.

Lemma searchMessages_nil (appState : option AppState) (sessionID : string) (limit : Z)
    (q : option MemorySearchPayload) :
  q = None \/ appState = None ->
  searchMessages appState sessionID limit (start q)
  = (Done (Err (NewStorageError "nil query or appState received" None)), start q).
Proof.
  intros [-> | ->]; [|destruct q]; reflexivity.
Qed.

Lemma resolve_calls_no_scan (a : AppState) (p : MemorySearchPayload) (dbq : SelectQuery) :
  In (CallScan dbq) (resolve_calls a p) -> False.
Proof.
  unfold resolve_calls. destruct (negb _); [apply embedding_calls_no_scan | intros []].
Qed.

Lemma resolve_calls_no_mmr (a : AppState) (p : MemorySearchPayload) qe embs lambda k :
  In (CallMMR qe embs lambda k) (resolve_calls a p) -> False.
Proof.
  unfold resolve_calls, embedding_calls.
  destruct (negb _); [destruct (GetEmbeddingModel env a "message")|];
    cbn [In]; intuition discriminate.
Qed.

Lemma searchMessages_shape a sessionID limit p out st :
  searchMessages (Some a) sessionID limit (start (Some p)) = (out, st) ->
  run_shape a sessionID limit p st.
Proof.
  rewrite searchMessages_run. unfold search_run.
  destruct (nonempty p) eqn:Hne; cbn [negb].
  2:{ intros [= _ <-]. apply stopped_early; [reflexivity | intros ? [] | intros ? ? ? ? []]. }
  destruct (resolve a p) as [[qe|err]|msg] eqn:Hres.
  2,3: intros [= _ <-]; apply stopped_early; cbn [query calls];
       [reflexivity | intros dbq Hin; exact (resolve_calls_no_scan _ _ _ Hin)
       | intros ? ? ? ? Hin; exact (resolve_calls_no_mmr _ _ _ _ _ _ Hin)].
  destruct (filtered p (projected a p)) as [mid|err] eqn:Hfil.
  2: intros [= _ <-]; apply stopped_early; cbn [query calls];
     [reflexivity | intros dbq Hin; exact (resolve_calls_no_scan _ _ _ Hin)
     | intros ? ? ? ? Hin; exact (resolve_calls_no_mmr _ _ _ _ _ _ Hin)].
  cbv zeta.
  destruct (Scan env (finished sessionID limit p mid)) as [rs|err] eqn:Hscan.
  2:{ intros [= _ <-].
      eapply reached_storage with (qe := qe) (mid := mid);
        [exact Hne | exact Hres | exact Hfil | reflexivity | reflexivity |].
      unfold rerank_calls. rewrite Hscan. reflexivity. }
  destruct (String.eqb (Type_ p) SearchTypeMMR) eqn:Hty.
  2:{ intros [= _ <-].
      eapply reached_storage with (qe := qe) (mid := mid);
        [exact Hne | exact Hres | exact Hfil | reflexivity | reflexivity |].
      unfold rerank_calls. rewrite Hscan, Hty. reflexivity. }
  match goal with |- context [rerankMMR ?rs ?qe ?l ?k ?s] =>
    destruct (rerankMMR_run rs qe l k s) as [o Ho]; rewrite Ho end.
  intros [= _ <-].
  eapply reached_storage with (qe := qe) (mid := mid);
    [exact Hne | exact Hres | exact Hfil | reflexivity
    | cbn [calls]; rewrite <- app_assoc; reflexivity |].
  unfold rerank_calls. rewrite Hscan, Hty. reflexivity.
Qed.

(** A query reaches the SQL engine only as the outcome of the stages. *)
Lemma searchMessages_sent appState sessionID q limit out st dbq :
  searchMessages appState sessionID limit (start q) = (out, st) ->
  In (CallScan dbq) (calls st) ->
  exists a p qe mid,
    appState = Some a /\ q = Some p /\ nonempty p = true
    /\ resolve a p = Done (Ok qe)
    /\ filtered p (projected a p) = Ok mid
    /\ dbq = finished sessionID limit p mid
    /\ query st = Some (defaulted p)
    /\ calls st = resolve_calls a p ++ CallScan dbq :: rerank_calls p limit qe dbq.
Proof.
  intros H Hin.
  destruct q as [p|], appState as [a|];
    try (rewrite searchMessages_nil in H by auto; injection H as _ <-; destruct Hin).
  apply searchMessages_shape in H.
  destruct H as [_ Hno _ | qe mid later Hne Hres Hfil Hq Hcalls Hlater].
  - destruct (Hno _ Hin).
  - assert (dbq = finished sessionID limit p mid) as ->.
    { rewrite Hcalls in Hin. apply in_app_or in Hin as [Hin|[Hin|Hin]].
      - destruct (resolve_calls_no_scan _ _ _ Hin).
      - congruence.
      - subst later. unfold rerank_calls in Hin.
        destruct (Scan env _); [destruct (String.eqb _ _)|]; cbn [In] in Hin;
          intuition discriminate. }
    exists a, p, qe, mid. subst later. repeat split; assumption.
Qed.

(** And every query that passes the stages does reach it. *)
Lemma searchMessages_reaches_storage a sessionID limit p qe mid :
  nonempty p = true ->
  resolve a p = Done (Ok qe) ->
  filtered p (projected a p) = Ok mid ->
  In (CallScan (finished sessionID limit p mid))
     (calls (snd (searchMessages (Some a) sessionID limit (start (Some p))))).
Proof.
  intros Hne Hres Hfil.
  destruct (searchMessages (Some a) sessionID limit (start (Some p))) as [out st] eqn:H.
  cbn [snd]. pose proof H as H'. rewrite searchMessages_run in H'. unfold search_run in H'.
  rewrite Hne, Hres, Hfil in H'. cbn [negb] in H'. cbv zeta in H'.
  destruct (Scan env (finished sessionID limit p mid)) as [rs|err].
  2:{ injection H' as _ <-. cbn [calls]. apply in_or_app. right. left. reflexivity. }
  destruct (String.eqb (Type_ p) SearchTypeMMR).
  2:{ injection H' as _ <-. cbn [calls]. apply in_or_app. right. left. reflexivity. }
  match type of H' with context [rerankMMR ?rs ?qe ?l ?k ?s] =>
    destruct (rerankMMR_run rs qe l k s) as [o Ho]; rewrite Ho in H' end.
  injection H' as _ <-. cbn [calls]. apply in_or_app. left. apply in_or_app.
  right. left. reflexivity.
Qed.


(** *** Facts about the builder steps *)

Lemma finished_fields sessionID limit p q :
  tables (finished sessionID limit p q) = tables q
  /\ joins (finished sessionID limit p q) = joins q
  /\ columns (finished sessionID limit p q) = columns q
  /\ wheres (finished sessionID limit p q)
     = wheres q ++ [session_clause sessionID; deleted_clause]
  /\ orders (finished sessionID limit p q) = orders q ++ [sort_term (Text p)]
  /\ limit_ (finished sessionID limit p q) = to_int32 (requested_rows (Type_ p) limit).
Proof.
  unfold finished, Limit, Order, Where, session_clause, deleted_clause.
  cbn [tables joins columns wheres orders limit_].
  rewrite <- app_assoc. repeat split; reflexivity.
Qed.

Lemma dated_fields (m : gmap string Value) (q : SelectQuery) :
  tables (dated m q) = tables q /\ joins (dated m q) = joins q
  /\ columns (dated m q) = columns q
  /\ wheres (dated m q) = wheres q ++ date_clauses m
  /\ orders (dated m q) = orders q /\ limit_ (dated m q) = limit_ q.
Proof.
  unfold dated, date_clauses, Where.
  destruct (m !! "start_date"), (m !! "end_date");
    cbn [tables joins columns wheres orders limit_ app];
    rewrite <- ?app_assoc, ?app_nil_r; repeat split; reflexivity.
Qed.

Lemma projected_fields (a : AppState) (p : MemorySearchPayload) :
  wheres (projected a p) = [] /\ orders (projected a p) = [].
Proof.
  unfold projected, with_dist, selected.
  destruct (negb _); [destruct (embedded a (Text p)) as [[e0|err]|msg]|];
    destruct (String.eqb (Type_ p) SearchTypeMMR); split; reflexivity.
Qed.

Lemma no_metadata (m : gmap string Value) :
  (0 <? Z.of_nat (size m)) = false -> m = ∅.
Proof.
  intros H. apply Z.ltb_ge in H. apply map_size_empty_iff. lia.
Qed.

(** *** The specified properties *)

(** C10. Called with a nil query payload, or with a nil application
    state, the search returns an error and no results: it does not panic,
    reaches no collaborator and leaves the store as it was. *)
Theorem nil_query_or_state_is_an_error (sessionID : string) (limit : Z) :
  (forall appState,
      searchMessages appState sessionID limit (start None)
      = (Done (Err (NewStorageError "nil query or appState received" None)), start None))
  /\ (forall q,
      searchMessages None sessionID limit (start q)
      = (Done (Err (NewStorageError "nil query or appState received" None)), start q)).
Proof.
  split; intros; apply searchMessages_nil; auto.
Qed.

(** C1. A query whose text is empty and whose metadata filter is empty is
    answered with an invalid-query error and no results, before any
    collaborator is reached; with a non-nil application state the error is
    the "empty query" storage error. *)
Theorem empty_query_is_invalid (appState : option AppState) (sessionID : string)
    (limit : Z) (p : MemorySearchPayload) :
  Text p = "" ->
  size (Metadata p) = 0%nat ->
  exists err,
    searchMessages appState sessionID limit (start (Some p))
    = (Done (Err err), start (Some p))
    /\ InvalidQueryError err = true
    /\ (appState <> None ->
        err = NewStorageError "empty query" (Some (errors_New "empty query"))).
Proof.
  intros Htext Hmeta. destruct appState as [a|].
  - exists (NewStorageError "empty query" (Some (errors_New "empty query"))).
    split; [|split; [reflexivity | reflexivity]].
    rewrite searchMessages_run. unfold search_run, nonempty.
    rewrite Htext, Hmeta. reflexivity.
  - exists (NewStorageError "nil query or appState received" None).
    split; [apply searchMessages_nil; auto | split; [reflexivity | congruence]].
Qed.

Lemma filter_loop (keep : MemorySearchResult -> bool) (results acc : list MemorySearchResult) :
  fold_left (fun filteredResults result =>
               if keep result then filteredResults ++ [result] else filteredResults)
            results acc
  = acc ++ List.filter keep results.
Proof.
  revert acc. induction results as [|r results IH]; intros acc; cbn [fold_left List.filter].
  - now rewrite app_nil_r.
  - rewrite IH. destruct (keep r); [rewrite <- app_assoc|]; reflexivity.
Qed.

(** C2. The result validator keeps a row exactly when its distance is not
    NaN or the metadata filter of the query is not empty; the kept rows
    come out unchanged and in their original order, and under a non-empty
    metadata filter nothing is dropped at all. *)
Theorem filter_keeps_valid_rows (results : list MemorySearchResult)
    (metadata : gmap string Value) :
  filterValidMessageSearchResults results metadata
  = List.filter (fun r => negb (IsNaN (Dist r)) || (0 <? Z.of_nat (size metadata))) results
  /\ (forall r, In r (filterValidMessageSearchResults results metadata)
                <-> In r results /\ (Dist r <> S754_nan \/ metadata <> ∅))
  /\ (metadata <> ∅ -> filterValidMessageSearchResults results metadata = results).
Proof.
  assert (Heq : filterValidMessageSearchResults results metadata
                = List.filter (fun r => negb (IsNaN (Dist r))
                                        || (0 <? Z.of_nat (size metadata))) results).
  { unfold filterValidMessageSearchResults. now rewrite filter_loop. }
  assert (Hsize : (0 <? Z.of_nat (size metadata)) = true <-> metadata <> ∅).
  { rewrite Z.ltb_lt, <- map_size_empty_iff. lia. }
  split; [exact Heq | split].
  - intros r. rewrite Heq, filter_In, orb_true_iff, negb_true_iff, Hsize.
    rewrite <- IsNaN_spec. destruct (IsNaN (Dist r)); intuition congruence.
  - intros Hne. rewrite Heq. apply Hsize in Hne. rewrite Hne. clear.
    induction results as [|r results IH]; cbn [List.filter]; [reflexivity|].
    rewrite orb_true_r. f_equal. exact IH.
Qed.

(** C7. Whatever the text, the metadata filter and the search type, the
    query handed to the SQL engine ends its conditions with the two the
    search always adds: the restriction to the requested session and the
    exclusion of soft-deleted records, both joined with AND. *)
Theorem session_and_tombstone_constraints appState sessionID q limit out st dbq :
  searchMessages appState sessionID limit (start q) = (out, st) ->
  In (CallScan dbq) (calls st) ->
  exists earlier,
    wheres dbq = earlier ++
      [WhereCond " AND " {| Query := "m.session_id = ?"; Args := [ArgString sessionID] |};
       WhereCond " AND " {| Query := "m.deleted_at IS NULL"; Args := [] |}].
Proof.
  intros H Hin.
  destruct (searchMessages_sent _ _ _ _ _ _ _ H Hin)
    as (a & p & qe & mid & _ & _ & _ & _ & _ & -> & _).
  exists (wheres mid). apply finished_fields.
Qed.

(** The limit of the query handed to the SQL engine.  The effective limit
    is 10 when the requested limit is 0 and the requested limit otherwise.
    The search passes bun the effective limit, and for an MMR search its
    product with the pool multiplier on Go's [int]; bun keeps the low 32
    bits of what it is passed.  Whenever the number passed is positive and
    below 2^31 the statement carries a LIMIT clause for exactly that
    number. *)
Theorem rows_requested appState sessionID q limit out st dbq :
  searchMessages appState sessionID limit (start q) = (out, st) ->
  In (CallScan dbq) (calls st) ->
  exists p,
    q = Some p
    /\ effective_limit limit = (if limit =? 0 then 10 else limit)
    /\ limit_ dbq
       = to_int32 (if String.eqb (Type_ p) SearchTypeMMR
                   then int_mul (effective_limit limit) (DefaultMMRMultiplier env)
                   else effective_limit limit)
    /\ (Type_ p <> SearchTypeMMR ->
        0 < effective_limit limit < 2 ^ 31 ->
        limit_clause dbq = Some (effective_limit limit))
    /\ (Type_ p = SearchTypeMMR ->
        0 < effective_limit limit * DefaultMMRMultiplier env < 2 ^ 31 ->
        limit_clause dbq = Some (effective_limit limit * DefaultMMRMultiplier env)).
Proof.
  intros H Hin.
  destruct (searchMessages_sent _ _ _ _ _ _ _ H Hin)
    as (a & p & qe & mid & _ & -> & _ & _ & _ & -> & _).
  exists p. destruct (finished_fields sessionID limit p mid) as (_ & _ & _ & _ & _ & Hl).
  unfold limit_clause. rewrite Hl. unfold requested_rows, int_mul.
  split; [reflexivity | split; [reflexivity | split; [reflexivity|split]]].
  - intros Hty Hr. apply String.eqb_neq in Hty. rewrite Hty.
    unfold to_int32. rewrite Z.mod_small by lia.
    replace (effective_limit limit + 2 ^ 31 - 2 ^ 31) with (effective_limit limit) by lia.
    destruct (0 <? effective_limit limit) eqn:Hpos; [reflexivity|].
    apply Z.ltb_ge in Hpos. lia.
  - intros Hty Hr. rewrite Hty, String.eqb_refl.
    unfold wrap. rewrite (Z.mod_small (_ + 2 ^ 63)) by lia.
    replace (effective_limit limit * DefaultMMRMultiplier env + 2 ^ 63 - 2 ^ 63)
      with (effective_limit limit * DefaultMMRMultiplier env) by lia.
    unfold to_int32. rewrite Z.mod_small by lia.
    replace (effective_limit limit * DefaultMMRMultiplier env + 2 ^ 31 - 2 ^ 31)
      with (effective_limit limit * DefaultMMRMultiplier env) by lia.
    destruct (0 <? effective_limit limit * DefaultMMRMultiplier env) eqn:Hpos;
      [reflexivity|].
    apply Z.ltb_ge in Hpos. lia.
Qed.

Lemma filtered_frame (p : MemorySearchPayload) (q mid : SelectQuery) :
  Metadata p !! "where" = None \/ compiles_conditions_only ->
  filtered p q = Ok mid ->
  columns mid = columns q /\ orders mid = orders q.
Proof.
  intros Hframe. unfold filtered. destruct (0 <? _); [|intros [= <-]; auto].
  unfold compiled. destruct (Metadata p !! "where") as [w|].
  - destruct Hframe as [|Hparse]; [discriminate|].
    destruct (json_Marshal env w) as [j|]; [|discriminate].
    destruct (json_Unmarshal env j) as [jq|]; [|discriminate].
    intros [= <-].
    destruct (dated_fields (Metadata p) (parseJSONQuery env q jq false "m"))
      as (_ & _ & Hc & _ & Ho & _).
    destruct (Hparse q jq false "m") as (_ & _ & Hpc & Hpo & _). cbv zeta in Hpc, Hpo.
    split; congruence.
  - intros [= <-].
    destruct (dated_fields (Metadata p) q) as (_ & _ & Hc & _ & Ho & _). auto.
Qed.

(** C5. The query handed to the SQL engine has exactly one sort key:
    distance descending when the query has text, creation timestamp
    descending when it has none.  (When the metadata carries a filter tree,
    this relies on the filter compiler adding conditions only.) *)
Theorem sort_policy appState sessionID p limit out st dbq :
  Metadata p !! "where" = None \/ compiles_conditions_only ->
  searchMessages appState sessionID limit (start (Some p)) = (out, st) ->
  In (CallScan dbq) (calls st) ->
  orders dbq = [if String.eqb (Text p) "" then "m.created_at DESC" else "dist DESC"].
Proof.
  intros Hframe H Hin.
  destruct (searchMessages_sent _ _ _ _ _ _ _ H Hin)
    as (a & p' & qe & mid & _ & [= <-] & _ & _ & Hfil & -> & _).
  destruct (finished_fields sessionID limit p mid) as (_ & _ & _ & _ & Ho & _).
  destruct (filtered_frame _ _ _ Hframe Hfil) as [_ Hmid].
  destruct (projected_fields a p) as [_ Hpo].
  rewrite Ho, Hmid, Hpo. unfold sort_term.
  destruct (String.eqb (Text p) ""); reflexivity.
Qed.

(** C6. The conditions of the query handed to the SQL engine are, in
    order: those of the compiled filter tree, which is compiled from the
    "where" entry of the metadata and from nothing else, and is absent
    exactly when the metadata has no such entry; then, for each of
    start_date and end_date that is present, one condition of its own on the
    creation timestamp, [>=] for the start and [<=] for the end, joined
    with AND; then the session and tombstone conditions. *)
Theorem date_bounds appState sessionID q limit out st dbq :
  searchMessages appState sessionID limit (start q) = (out, st) ->
  In (CallScan dbq) (calls st) ->
  exists a p tree,
    appState = Some a /\ q = Some p
    /\ ((Metadata p !! "where" = None /\ tree = projected a p /\ wheres tree = [])
        \/ exists where_ j jq,
             Metadata p !! "where" = Some where_
             /\ json_Marshal env where_ = Ok j
             /\ json_Unmarshal env j = Ok jq
             /\ tree = parseJSONQuery env (projected a p) jq false "m")
    /\ wheres dbq
       = wheres tree
         ++ match Metadata p !! "start_date" with
            | Some startDate =>
                [WhereCond " AND "
                   {| Query := "m.created_at >= ?"; Args := [ArgValue startDate] |}]
            | None => []
            end
         ++ match Metadata p !! "end_date" with
            | Some endDate =>
                [WhereCond " AND "
                   {| Query := "m.created_at <= ?"; Args := [ArgValue endDate] |}]
            | None => []
            end
         ++ [session_clause sessionID; deleted_clause]
    /\ (forall where_,
          Metadata p !! "where" = Some where_ ->
          exists j jq,
            json_Marshal env where_ = Ok j
            /\ json_Unmarshal env j = Ok jq
            /\ wheres dbq
               = wheres (parseJSONQuery env (projected a p) jq false "m")
                 ++ date_clauses (Metadata p)
                 ++ [session_clause sessionID; deleted_clause]).
Proof.
  intros H Hin.
  destruct (searchMessages_sent _ _ _ _ _ _ _ H Hin)
    as (a & p & qe & mid & -> & -> & _ & _ & Hfil & -> & _).
  destruct (finished_fields sessionID limit p mid) as (_ & _ & _ & Hw & _).
  rewrite Hw. clear Hw.
  destruct (projected_fields a p) as [Hpw _].
  unfold filtered in Hfil. destruct (0 <? Z.of_nat (size (Metadata p))) eqn:Hsize.
  - unfold compiled in Hfil.
    destruct (Metadata p !! "where") as [w|] eqn:Hwhere.
    + destruct (json_Marshal env w) as [j|] eqn:Hj; [|discriminate].
      destruct (json_Unmarshal env j) as [jq|] eqn:Hjq; [|discriminate].
      injection Hfil as <-.
      exists a, p, (parseJSONQuery env (projected a p) jq false "m").
      destruct (dated_fields (Metadata p)
                  (parseJSONQuery env (projected a p) jq false "m"))
        as (_ & _ & _ & Hd & _).
      split; [reflexivity | split; [reflexivity | split; [|split]]].
      * right. exists w, j, jq. auto.
      * rewrite Hd. unfold date_clauses. now rewrite <- !app_assoc.
      * intros w' Hw'. assert (w' = w) as -> by congruence.
        exists j, jq. rewrite Hd, <- !app_assoc. auto.
    + injection Hfil as <-.
      exists a, p, (projected a p).
      destruct (dated_fields (Metadata p) (projected a p)) as (_ & _ & _ & Hd & _).
      split; [reflexivity | split; [reflexivity | split; [|split]]].
      * left. auto.
      * rewrite Hd. unfold date_clauses. now rewrite <- !app_assoc.
      * intros w' Hw'. congruence.
  - injection Hfil as <-. apply no_metadata in Hsize.
    exists a, p, (projected a p).
    split; [reflexivity | split; [reflexivity | split; [|split]]].
    + left. rewrite Hsize, lookup_empty. auto.
    + rewrite Hsize, !lookup_empty. reflexivity.
    + rewrite Hsize, lookup_empty. intros w' Hw'. discriminate.
Qed.

Lemma selected_has_no_dist (type : SearchType) :
  List.filter is_dist_projection (columns (selected type)) = [].
Proof.
  unfold selected. destruct (String.eqb type SearchTypeMMR); reflexivity.
Qed.

(** C4, amended. For a query with text, the distance column of the query
    handed to the SQL engine is [(embedding <#> ?) * -1] bound to the
    vector the embedding provider returned for that text.  Its value on a
    row is the negative inner product of pgvector multiplied by -1, which
    for every well-formed value is the inner product itself, not its
    negation.  (When the metadata carries a filter tree, this relies on the
    filter compiler adding conditions only.) *)
Theorem distance_is_inner_product appState sessionID p limit out st dbq :
  Metadata p !! "where" = None \/ compiles_conditions_only ->
  searchMessages appState sessionID limit (start (Some p)) = (out, st) ->
  In (CallScan dbq) (calls st) ->
  Text p <> "" ->
  exists a model queryEmbedding rest,
    appState = Some a
    /\ GetEmbeddingModel env a "message" = Ok model
    /\ EmbedTexts env a model "message" [Text p] = Ok (queryEmbedding :: rest)
    /\ forall embedding,
         dist_of_row dbq embedding
         = Some (f64_mul (vector_negative_inner_product embedding queryEmbedding)
                         f64_minus_one)
         /\ (f64_valid (inner_product embedding queryEmbedding) = true ->
             dist_of_row dbq embedding = Some (inner_product embedding queryEmbedding)).
Proof.
  intros Hframe H Hin Htext.
  destruct (searchMessages_sent _ _ _ _ _ _ _ H Hin)
    as (a & p' & qe & mid & -> & [= <-] & _ & Hres & Hfil & -> & _).
  apply String.eqb_neq in Htext.
  unfold resolve in Hres. rewrite Htext in Hres. cbn [negb] in Hres.
  assert (Hcols : columns (finished sessionID limit p mid)
                  = columns (selected (Type_ p))
                    ++ [{| Query := "(embedding <#> ?) * -1 AS dist";
                           Args := [ArgVector qe] |}]).
  { destruct (finished_fields sessionID limit p mid) as (_ & _ & Hc & _). rewrite Hc.
    destruct (filtered_frame _ _ _ Hframe Hfil) as [Hmid _].
    rewrite Hmid. unfold projected. rewrite Htext, Hres. reflexivity. }
  unfold embedded in Hres.
  destruct (GetEmbeddingModel env a "message") as [model|] eqn:Hmodel; [|discriminate].
  destruct (EmbedTexts env a model "message" [Text p]) as [[|e0 rest]|] eqn:He;
    try discriminate.
  injection Hres as ->.
  exists a, model, qe, rest. repeat split; try assumption.
  - unfold dist_of_row. rewrite Hcols, List.filter_app, selected_has_no_dist. reflexivity.
  - intros Hvalid. unfold dist_of_row.
    rewrite Hcols, List.filter_app, selected_has_no_dist. cbn.
    unfold vector_negative_inner_product. now rewrite f64_mul_minus_one.
Qed.

Lemma In_rerank_calls p limit qe dbq qe' embs lambda k :
  In (CallMMR qe' embs lambda k) (rerank_calls p limit qe dbq) ->
  exists rs,
    Scan env dbq = Ok rs /\ Type_ p = SearchTypeMMR /\ qe' = qe
    /\ embs = map Embedding (filterValidMessageSearchResults rs (Metadata p))
    /\ lambda = MMRLambda (defaulted p) /\ k = effective_limit limit.
Proof.
  unfold rerank_calls.
  destruct (Scan env dbq) as [rs|]; [|intros []].
  destruct (String.eqb (Type_ p) SearchTypeMMR) eqn:Hty; [|intros []].
  apply String.eqb_eq in Hty.
  intros [[= <- <- <- <-]|[]]. exists rs. repeat split; auto.
Qed.


(** C9, amended. A search leaves the text, the metadata and the type of
    the payload it was handed as they were.  Its lambda is left as it was
    too, with one exception: an MMR search handed lambda 0 which gets as far
    as the limit step, that is, which hands its query to the SQL engine,
    has by then overwritten the lambda of the payload with the default
    lambda.  A search that hands no query to the SQL engine, or whose type
    is not MMR, or whose lambda is not 0, leaves the whole payload
    unchanged. *)
Theorem payload_after_search appState sessionID limit p out st :
  searchMessages appState sessionID limit (start (Some p)) = (out, st) ->
  exists p',
    query st = Some p'
    /\ Text p' = Text p /\ Metadata p' = Metadata p /\ Type_ p' = Type_ p
    /\ (MMRLambda p' = MMRLambda p
        \/ (Type_ p = SearchTypeMMR /\ feq (MMRLambda p) zero = true
            /\ MMRLambda p' = DefaultMMRLambda
            /\ exists dbq, In (CallScan dbq) (calls st)))
    /\ (Type_ p <> SearchTypeMMR \/ feq (MMRLambda p) zero = false -> p' = p)
    /\ ((forall dbq, ~ In (CallScan dbq) (calls st)) -> p' = p)
    /\ ((exists dbq, In (CallScan dbq) (calls st)) ->
        Type_ p = SearchTypeMMR ->
        feq (MMRLambda p) zero = true ->
        p' = set_MMRLambda p DefaultMMRLambda /\ MMRLambda p' = DefaultMMRLambda).
Proof.
  intros H.
  assert (Hsame : forall st',
             query st' = Some p ->
             (forall dbq, ~ In (CallScan dbq) (calls st')) ->
             exists p',
               query st' = Some p'
               /\ Text p' = Text p /\ Metadata p' = Metadata p /\ Type_ p' = Type_ p
               /\ (MMRLambda p' = MMRLambda p
                   \/ (Type_ p = SearchTypeMMR /\ feq (MMRLambda p) zero = true
                       /\ MMRLambda p' = DefaultMMRLambda
                       /\ exists dbq, In (CallScan dbq) (calls st')))
               /\ (Type_ p <> SearchTypeMMR \/ feq (MMRLambda p) zero = false -> p' = p)
               /\ ((forall dbq, ~ In (CallScan dbq) (calls st')) -> p' = p)
               /\ ((exists dbq, In (CallScan dbq) (calls st')) ->
                   Type_ p = SearchTypeMMR ->
                   feq (MMRLambda p) zero = true ->
                   p' = set_MMRLambda p DefaultMMRLambda
                   /\ MMRLambda p' = DefaultMMRLambda)).
  { intros st' Hq Hno. exists p.
    split; [exact Hq|]. do 3 (split; [reflexivity|]).
    split; [left; reflexivity|]. split; [reflexivity|]. split; [reflexivity|].
    intros [dbq Hin]. destruct (Hno _ Hin). }
  destruct appState as [a|].
  2:{ rewrite searchMessages_nil in H by auto. injection H as _ <-.
      apply Hsame; [reflexivity | intros dbq []]. }
  apply searchMessages_shape in H.
  destruct H as [Hq Hno _ | qe mid later _ _ _ Hq Hcalls _]; [apply Hsame; assumption|].
  clear Hsame.
  assert (Hsent : In (CallScan (finished sessionID limit p mid)) (calls st)).
  { rewrite Hcalls. apply in_or_app. right. left. reflexivity. }
  exists (defaulted p). split; [exact Hq|]. unfold defaulted.
  destruct (String.eqb (Type_ p) SearchTypeMMR) eqn:Hty;
    [destruct (feq (MMRLambda p) zero) eqn:Hz|]; cbn [andb];
    cbn [set_MMRLambda Text Metadata Type_ MMRLambda].
  - apply String.eqb_eq in Hty. do 3 (split; [reflexivity|]).
    split; [right; repeat split; auto; eexists; exact Hsent|].
    split; [intros [Hn|Hn]; congruence|].
    split; [intros Hno; destruct (Hno _ Hsent)|].
    intros _ _ _. split; reflexivity.
  - do 3 (split; [reflexivity|]).
    split; [left; reflexivity|]. split; [reflexivity|]. split; [reflexivity|].
    intros _ _ Hz'. discriminate.
  - apply String.eqb_neq in Hty. do 3 (split; [reflexivity|]).
    split; [left; reflexivity|]. split; [reflexivity|]. split; [reflexivity|].
    intros _ Hty'. contradiction.
Qed.

(** *** Further properties of the search path *)

(** An index a slice of that length accepts. *)
Definition in_bounds {A} (l : list A) (i : Z) : bool :=
  (0 <=? i) && (i <? Z.of_nat (length l)).

Lemma index_in_bounds {A} (l : list A) (i : Z) (s : Store) :
  in_bounds l i = true ->
  exists a, l !! Z.to_nat i = Some a /\ index l i s = (Done a, s).
Proof.
  intros Hb. unfold index. fold (in_bounds l i). rewrite Hb.
  unfold in_bounds in Hb. apply andb_prop in Hb as [Hlo Hhi].
  apply Z.leb_le in Hlo. apply Z.ltb_lt in Hhi.
  destruct (l !! Z.to_nat i) as [a|] eqn:Hl.
  - exists a. split; reflexivity.
  - apply lookup_ge_None in Hl. lia.
Qed.

Lemma index_out_of_bounds {A} (l : list A) (i : Z) (s : Store) :
  in_bounds l i = false -> index l i s = (Panic "index out of range", s).
Proof.
  intros Hb. unfold index. fold (in_bounds l i). rewrite Hb. reflexivity.
Qed.

Lemma for_each_index_in_bounds {A} (l : list A) (idxs : list Z) (s : Store) :
  forallb (in_bounds l) idxs = true ->
  exists rows,
    for_each (fun idx => index l idx) idxs s = (Done rows, s)
    /\ Forall2 (fun idx row => l !! Z.to_nat idx = Some row) idxs rows.
Proof.
  induction idxs as [|i idxs IH]; cbn [forallb for_each].
  - intros _. exists []. split; [reflexivity | constructor].
  - intros Hb. apply andb_prop in Hb as [Hi Hrest].
    destruct (index_in_bounds l i s Hi) as (a & Ha & Hrun).
    destruct (IH Hrest) as (rows & Hrows & Hall).
    exists (a :: rows). split; [|constructor; assumption].
    unfold bind. rewrite Hrun, Hrows. reflexivity.
Qed.

Lemma for_each_index_out_of_bounds {A} (l : list A) (idxs : list Z) (s : Store) :
  forallb (in_bounds l) idxs = false ->
  for_each (fun idx => index l idx) idxs s = (Panic "index out of range", s).
Proof.
  induction idxs as [|i idxs IH]; cbn [forallb for_each]; [discriminate|].
  intros Hb. unfold bind. destruct (in_bounds l i) eqn:Hi.
  - destruct (index_in_bounds l i s Hi) as (a & _ & ->).
    cbn [andb] in Hb. rewrite (IH Hb). reflexivity.
  - rewrite (index_out_of_bounds l i s Hi). reflexivity.
Qed.

Lemma picked_rows_are_members {A} (l : list A) (idxs : list Z) (rows : list A) :
  Forall2 (fun idx row => l !! Z.to_nat idx = Some row) idxs rows ->
  forall row, In row rows -> In row l.
Proof.
  induction 1 as [|idx row idxs rows Hrow _ IH]; intros r; cbn [In]; [tauto|].
  intros [<-|Hin]; [|auto].
  apply list_elem_of_In. eapply list_elem_of_lookup_2. eassumption.
Qed.

(** X1. rerankMMR hands the reranker the embeddings of the rows, in row
    order, and records that one call.  A failure of the reranker comes back
    as an "error applying mmr" storage error.  When every index it returns
    lies within the rows, the result is the rows at those indices, in the
    order of the indices: as many rows as indices, each one of the rows
    given.  When some index lies outside the rows, the call panics with an
    index out of range. *)
Theorem rerankMMR_outcomes (results : list MemorySearchResult) (qe : Vector)
    (lambda : float32) (k : Z) (s : Store) :
  let s' := {| query := query s; dbQuery := dbQuery s;
               calls := calls s ++ [CallMMR qe (map Embedding results) lambda k] |} in
  match MaximalMarginalRelevance env qe (map Embedding results) lambda k with
  | Err err =>
      rerankMMR results qe lambda k s
      = (Done (Err (NewStorageError "error applying mmr" (Some err))), s')
  | Ok idxs =>
      if forallb (in_bounds results) idxs
      then exists rows,
             rerankMMR results qe lambda k s = (Done (Ok rows), s')
             /\ length rows = length idxs
             /\ Forall2 (fun idx row => results !! Z.to_nat idx = Some row) idxs rows
             /\ (forall row, In row rows -> In row results)
      else rerankMMR results qe lambda k s = (Panic "index out of range", s')
  end.
Proof.
  destruct s as [q d c]. cbv zeta. cbn [query dbQuery calls].
  unfold rerankMMR, call_MaximalMarginalRelevance. unfold_run_goal.
  destruct (MaximalMarginalRelevance env qe (map Embedding results) lambda k)
    as [idxs|err]; [|reflexivity].
  destruct (forallb (in_bounds results) idxs) eqn:Hb.
  - destruct (for_each_index_in_bounds results idxs
                {| query := q; dbQuery := d;
                   calls := c ++ [CallMMR qe (map Embedding results) lambda k] |} Hb)
      as (rows & Hrows & Hall).
    exists rows. rewrite Hrows. split; [reflexivity|].
    split; [symmetry; eapply Forall2_length; eassumption|].
    split; [assumption|].
    intros row Hin. eapply picked_rows_are_members; eassumption.
  - rewrite for_each_index_out_of_bounds by assumption. reflexivity.
Qed.

Lemma nonempty_of_text (p : MemorySearchPayload) : Text p <> "" -> nonempty p = true.
Proof.
  intros H. apply String.eqb_neq in H. unfold nonempty. rewrite H. reflexivity.
Qed.





(** X2. When the embedding provider fails, on either of its two calls, a
    search with text returns an "error adding vector column" storage error
    wrapping the failure, leaves the payload as it was and hands nothing to
    the SQL engine or to the reranker. *)
Theorem embedding_failure_stops_search (a : AppState) (sessionID : string) (limit : Z)
    (p : MemorySearchPayload) (err : error) :
  Text p <> "" ->
  GetEmbeddingModel env a "message" = Err err
  \/ (exists model, GetEmbeddingModel env a "message" = Ok model
                    /\ EmbedTexts env a model "message" [Text p] = Err err) ->
  exists message st,
    searchMessages (Some a) sessionID limit (start (Some p))
    = (Done (Err (NewStorageError "error adding vector column"
                    (Some (NewStorageError message (Some err))))), st)
    /\ (message = "failed to get message embedding model"
        \/ message = "failed to embed query")
    /\ query st = Some p
    /\ (forall dbq, ~ In (CallScan dbq) (calls st))
    /\ (forall qe embs lambda k, ~ In (CallMMR qe embs lambda k) (calls st)).
Proof.
  intros Htext Hfail.
  assert (Hres : exists message,
             resolve a p = Done (Err (NewStorageError message (Some err)))
             /\ (message = "failed to get message embedding model"
                 \/ message = "failed to embed query")).
  { unfold resolve, embedded. apply String.eqb_neq in Htext. rewrite Htext. cbn [negb].
    destruct Hfail as [Hm | (model & Hm & He)]; rewrite Hm, ?He; eauto. }
  destruct Hres as (message & Hres & Hmsg).
  exists message. eexists. rewrite searchMessages_run. unfold search_run.
  rewrite (nonempty_of_text p Htext), Hres. cbn [negb].
  split; [reflexivity|]. split; [exact Hmsg|]. cbn [query calls].
  split; [reflexivity|]. split.
  - intros dbq Hin. exact (resolve_calls_no_scan _ _ _ Hin).
  - intros ? ? ? ? Hin. exact (resolve_calls_no_mmr _ _ _ _ _ _ Hin).
Qed.

(** X3. When the embedding provider answers a search with text with no
    error and no vector, the search panics on [e[0]] with an index out of
    range; nothing has been handed to the SQL engine by then. *)
Theorem empty_embedding_panics (a : AppState) (sessionID : string) (limit : Z)
    (p : MemorySearchPayload) (model : EmbeddingModel) :
  Text p <> "" ->
  GetEmbeddingModel env a "message" = Ok model ->
  EmbedTexts env a model "message" [Text p] = Ok [] ->
  exists st,
    searchMessages (Some a) sessionID limit (start (Some p))
    = (Panic "index out of range", st)
    /\ query st = Some p
    /\ (forall dbq, ~ In (CallScan dbq) (calls st)).
Proof.
  intros Htext Hm He.
  assert (Hres : resolve a p = Panic "index out of range").
  { unfold resolve, embedded. apply String.eqb_neq in Htext.
    rewrite Htext, Hm, He. reflexivity. }
  eexists. rewrite searchMessages_run. unfold search_run.
  rewrite (nonempty_of_text p Htext), Hres. cbn [negb].
  split; [reflexivity|]. cbn [query calls]. split; [reflexivity|].
  intros dbq Hin. exact (resolve_calls_no_scan _ _ _ Hin).
Qed.


(** What a run that reached the SQL engine returns, from the scan on. *)
Ltac from_the_scan H Hin a p qe mid Hne Hres Hfil Hq Hcalls :=
  destruct (searchMessages_sent _ _ _ _ _ _ _ H Hin)
    as (a & p & qe & mid & -> & [= <-] & Hne & Hres & Hfil & -> & Hq & Hcalls);
  rewrite searchMessages_run in H; unfold search_run in H;
  rewrite Hne, Hres, Hfil in H; cbn [negb] in H; cbv zeta in H.

(** X5. When the SQL engine fails, the search returns a "memory
    searchMessages failed" storage error wrapping the failure and the
    reranker is not called. *)
Theorem scan_failure_is_reported appState sessionID limit (p : MemorySearchPayload)
    out st dbq (err : error) :
  searchMessages appState sessionID limit (start (Some p)) = (out, st) ->
  In (CallScan dbq) (calls st) ->
  Scan env dbq = Err err ->
  out = Done (Err (NewStorageError "memory searchMessages failed" (Some err)))
  /\ (forall qe embs lambda k, ~ In (CallMMR qe embs lambda k) (calls st)).
Proof.
  intros H Hin Hscan.
  from_the_scan H Hin a p' qe mid Hne Hres Hfil Hq Hcalls.
  rewrite Hscan in H. injection H as <- <-. split; [reflexivity|].
  cbn [calls]. intros qe' embs lambda k Hmmr.
  apply in_app_or in Hmmr as [Hmmr|[Hmmr|[]]]; [|discriminate].
  exact (resolve_calls_no_mmr _ _ _ _ _ _ Hmmr).
Qed.

(** X6. A search whose type is anything but "mmr" returns the scanned rows
    after validation, in scan order, and never calls the reranker; the
    payload is left as it was.  When the query has no metadata, no returned
    row has a NaN distance. *)
Theorem similarity_search_returns_validated_rows appState sessionID limit
    (p : MemorySearchPayload) out st dbq rs :
  searchMessages appState sessionID limit (start (Some p)) = (out, st) ->
  Type_ p <> SearchTypeMMR ->
  In (CallScan dbq) (calls st) ->
  Scan env dbq = Ok rs ->
  out = Done (Ok (filterValidMessageSearchResults rs (Metadata p)))
  /\ (forall qe embs lambda k, ~ In (CallMMR qe embs lambda k) (calls st))
  /\ query st = Some p
  /\ (Metadata p = ∅ ->
      forall row, In row (filterValidMessageSearchResults rs (Metadata p)) ->
                  Dist row <> S754_nan).
Proof.
  intros H Hty Hin Hscan. apply String.eqb_neq in Hty.
  from_the_scan H Hin a p' qe mid Hne Hres Hfil Hq Hcalls.
  rewrite Hscan, Hty in H. injection H as <- <-. split; [reflexivity|].
  cbn [calls query]. split; [|split].
  - intros qe' embs lambda k Hmmr.
    apply in_app_or in Hmmr as [Hmmr|[Hmmr|[]]]; [|discriminate].
    exact (resolve_calls_no_mmr _ _ _ _ _ _ Hmmr).
  - unfold defaulted. rewrite Hty. reflexivity.
  - intros Hempty row Hrow.
    unfold filterValidMessageSearchResults in Hrow. rewrite filter_loop in Hrow.
    cbn [app] in Hrow. apply filter_In in Hrow as [_ Hkeep].
    rewrite Hempty, map_size_empty in Hkeep. cbn in Hkeep.
    rewrite orb_false_r in Hkeep. apply negb_true_iff in Hkeep.
    intros Hnan. apply IsNaN_spec in Hnan. congruence.
Qed.

Lemma validated_rows (rs : list MemorySearchResult) (m : gmap string Value)
    (row : MemorySearchResult) :
  In row (filterValidMessageSearchResults rs m) ->
  In row rs /\ (Dist row <> S754_nan \/ m <> ∅).
Proof.
  unfold filterValidMessageSearchResults. rewrite filter_loop. cbn [app].
  intros Hrow. apply filter_In in Hrow as [Hin Hkeep]. split; [exact Hin|].
  apply orb_true_iff in Hkeep as [Hd|Hs].
  - left. apply negb_true_iff in Hd. intros Hnan. apply IsNaN_spec in Hnan. congruence.
  - right. intros ->. rewrite map_size_empty in Hs. discriminate.
Qed.

(** X7. The rows an MMR search returns are the validated rows of the scan
    at the indices the reranker chose, in the order it chose them: as many
    rows as indices, every one of them a row the scan returned and the
    validation kept. *)
Theorem mmr_search_returns_validated_rows appState sessionID limit
    (p : MemorySearchPayload) rows st :
  searchMessages appState sessionID limit (start (Some p)) = (Done (Ok rows), st) ->
  Type_ p = SearchTypeMMR ->
  exists dbq rs qe lambda idxs,
    In (CallScan dbq) (calls st)
    /\ Scan env dbq = Ok rs
    /\ MaximalMarginalRelevance env qe
         (map Embedding (filterValidMessageSearchResults rs (Metadata p)))
         lambda (effective_limit limit) = Ok idxs
    /\ length rows = length idxs
    /\ Forall2 (fun idx row =>
                  filterValidMessageSearchResults rs (Metadata p) !! Z.to_nat idx = Some row)
               idxs rows
    /\ (forall row, In row rows ->
                    In row rs /\ (Dist row <> S754_nan \/ Metadata p <> ∅)).
Proof.
  intros H Hty.
  destruct appState as [a|]; [|rewrite searchMessages_nil in H by auto; discriminate].
  pose proof H as Hrun. rewrite searchMessages_run in H. unfold search_run in H.
  destruct (nonempty p); cbn [negb] in H; [|discriminate].
  destruct (resolve a p) as [[qe|]|]; try discriminate.
  destruct (filtered p (projected a p)) as [mid|]; [|discriminate].
  cbv zeta in H.
  destruct (Scan env (finished sessionID limit p mid)) as [rs|] eqn:Hscan; [|discriminate].
  rewrite Hty, String.eqb_refl in H.
  match type of H with context [rerankMMR ?kept ?qe ?l ?k ?s] =>
    pose proof (rerankMMR_outcomes kept qe l k s) as Hr; cbv zeta in Hr;
    destruct (MaximalMarginalRelevance env qe (map Embedding kept) l k) as [idxs|] eqn:Hmmr
  end.
  2:{ rewrite Hr in H. discriminate. }
  destruct (forallb _ idxs); [|rewrite Hr in H; discriminate].
  destruct Hr as (rows' & Hr & Hlen & Hall & Hmem). rewrite Hr in H.
  injection H as <- <-.
  exists (finished sessionID limit p mid), rs, qe. do 2 eexists.
  split; [cbn [calls]; apply in_or_app; left; apply in_or_app; right; left; reflexivity|].
  split; [exact Hscan|]. split; [exact Hmmr|].
  split; [exact Hlen|]. split; [exact Hall|].
  intros row Hrow. apply validated_rows. auto.
Qed.

(** X8. Whenever the reranker is called, the search is an MMR search, the
    number of rows asked of it is the effective limit (not the size of the
    candidate pool), its lambda is the payload's own unless that is 0, in
    which case it is the default, its candidates are the embeddings of the
    validated rows of the scan, and for a query without text its query
    vector is nil. *)
Theorem mmr_call_arguments appState sessionID limit (p : MemorySearchPayload)
    out st qe embs lambda k :
  searchMessages appState sessionID limit (start (Some p)) = (out, st) ->
  In (CallMMR qe embs lambda k) (calls st) ->
  Type_ p = SearchTypeMMR
  /\ k = effective_limit limit
  /\ lambda = (if feq (MMRLambda p) zero then DefaultMMRLambda else MMRLambda p)
  /\ (Text p = "" -> qe = [])
  /\ exists dbq rs,
       In (CallScan dbq) (calls st)
       /\ Scan env dbq = Ok rs
       /\ embs = map Embedding (filterValidMessageSearchResults rs (Metadata p)).
Proof.
  intros H Hin.
  destruct appState as [a|];
    [|rewrite searchMessages_nil in H by auto; injection H as _ <-; destruct Hin].
  apply searchMessages_shape in H.
  destruct H as [_ _ Hno | qe0 mid later _ Hres _ _ Hcalls Hlater];
    [destruct (Hno _ _ _ _ Hin)|].
  rewrite Hcalls in Hin. apply in_app_or in Hin as [Hin|[Hin|Hin]].
  - destruct (resolve_calls_no_mmr _ _ _ _ _ _ Hin).
  - discriminate.
  - subst later.
    apply In_rerank_calls in Hin as (rs & Hscan & Hty & -> & -> & -> & ->).
    split; [exact Hty|]. split; [reflexivity|]. split.
    { unfold defaulted. rewrite Hty, String.eqb_refl. cbn [andb].
      destruct (feq (MMRLambda p) zero); reflexivity. }
    split.
    { intros Ht. unfold resolve in Hres. rewrite Ht in Hres. cbn in Hres. congruence. }
    exists (finished sessionID limit p mid), rs.
    split; [rewrite Hcalls; apply in_or_app; right; left; reflexivity|]. auto.
Qed.

(** X9. The search panics in two places only.  If the embedding provider
    returns one vector for each text it is given, and the reranker returns
    indices within the candidates it is given, every search returns, with
    rows or with an error, whatever its arguments. *)
Theorem search_returns_without_panic appState sessionID limit
    (q : option MemorySearchPayload) :
  (forall a model texts e,
      EmbedTexts env a model "message" texts = Ok e -> length e = length texts) ->
  (forall qe embs lambda k idxs,
      MaximalMarginalRelevance env qe embs lambda k = Ok idxs ->
      Forall (fun idx => 0 <= idx < Z.of_nat (length embs)) idxs) ->
  exists r st, searchMessages appState sessionID limit (start q) = (Done r, st).
Proof.
  intros Hembed Hmmr.
  destruct q as [p|], appState as [a|];
    try (rewrite searchMessages_nil by auto; eauto).
  rewrite searchMessages_run. unfold search_run.
  destruct (nonempty p); cbn [negb]; [|eauto].
  assert (Hres : exists r, resolve a p = Done r).
  { unfold resolve, embedded. destruct (negb _); [|eauto].
    destruct (GetEmbeddingModel env a "message") as [model|]; [|eauto].
    destruct (EmbedTexts env a model "message" [Text p]) as [[|e0 e]|] eqn:He; eauto.
    apply Hembed in He. discriminate. }
  destruct Hres as ([qe|err] & ->); [|eauto].
  destruct (filtered p (projected a p)) as [mid|]; [|eauto].
  cbv zeta. destruct (Scan env (finished sessionID limit p mid)) as [rs|]; [|eauto].
  destruct (String.eqb (Type_ p) SearchTypeMMR); [|eauto].
  match goal with |- context [rerankMMR ?kept ?qe ?l ?k ?s] =>
    pose proof (rerankMMR_outcomes kept qe l k s) as Hr; cbv zeta in Hr;
    destruct (MaximalMarginalRelevance env qe (map Embedding kept) l k) as [idxs|] eqn:Hm
  end.
  2:{ rewrite Hr. eauto. }
  assert (Hb : forallb (in_bounds (filterValidMessageSearchResults rs (Metadata p))) idxs
               = true).
  { apply Hmmr in Hm. rewrite length_map in Hm. apply forallb_forall. intros idx Hidx.
    rewrite List.Forall_forall in Hm. specialize (Hm idx Hidx). unfold in_bounds.
    apply andb_true_intro. split; [apply Z.leb_le | apply Z.ltb_lt]; lia. }
  rewrite Hb in Hr. destruct Hr as (rows & -> & _). eauto.
Qed.

Definition is_provider_call (c : Call) : bool :=
  match c with
  | CallGetEmbeddingModel _ | CallEmbedTexts _ _ => true
  | _ => false
  end.

Lemma resolve_calls_provider (a : AppState) (p : MemorySearchPayload) :
  List.filter is_provider_call (resolve_calls a p) = resolve_calls a p.
Proof.
  unfold resolve_calls, embedding_calls.
  destruct (negb _); [destruct (GetEmbeddingModel env a "message")|]; reflexivity.
Qed.

(** X10. The collaborators are called in a fixed order: first the
    embedding provider, then the SQL engine, at most once, then the
    reranker, at most once and only after a scan. *)
Theorem collaborators_are_called_in_order appState sessionID limit
    (q : option MemorySearchPayload) out st :
  searchMessages appState sessionID limit (start q) = (out, st) ->
  exists provider scans reranks,
    calls st = provider ++ scans ++ reranks
    /\ List.filter is_provider_call provider = provider
    /\ (scans = [] \/ exists dbq, scans = [CallScan dbq])
    /\ (reranks = []
        \/ (scans <> [] /\ exists qe embs lambda k, reranks = [CallMMR qe embs lambda k])).
Proof.
  intros H.
  destruct q as [p|], appState as [a|];
    try (rewrite searchMessages_nil in H by auto; injection H as _ <-;
         exists [], [], []; cbn; auto).
  rewrite searchMessages_run in H. unfold search_run in H.
  destruct (nonempty p); cbn [negb] in H;
    [|injection H as _ <-; exists [], [], []; cbn; auto].
  assert (Hstop : forall o,
             (o, {| query := Some p; dbQuery := projected a p;
                    calls := resolve_calls a p |}) = (out, st) ->
             exists provider scans reranks,
               calls st = provider ++ scans ++ reranks
               /\ List.filter is_provider_call provider = provider
               /\ (scans = [] \/ exists dbq, scans = [CallScan dbq])
               /\ (reranks = []
                   \/ (scans <> []
                       /\ exists qe embs lambda k, reranks = [CallMMR qe embs lambda k]))).
  { intros o [= _ <-]. exists (resolve_calls a p), [], []. cbn [calls].
    rewrite !app_nil_r. auto using resolve_calls_provider. }
  destruct (resolve a p) as [[qe|]|]; try (eapply Hstop; eassumption).
  destruct (filtered p (projected a p)) as [mid|]; [|eapply Hstop; eassumption].
  clear Hstop. cbv zeta in H.
  assert (Hscan : forall o q',
             (o, {| query := q'; dbQuery := finished sessionID limit p mid;
                    calls := resolve_calls a p
                             ++ [CallScan (finished sessionID limit p mid)] |}) = (out, st) ->
             exists provider scans reranks,
               calls st = provider ++ scans ++ reranks
               /\ List.filter is_provider_call provider = provider
               /\ (scans = [] \/ exists dbq, scans = [CallScan dbq])
               /\ (reranks = []
                   \/ (scans <> []
                       /\ exists qe embs lambda k, reranks = [CallMMR qe embs lambda k]))).
  { intros o q' [= _ <-].
    exists (resolve_calls a p), [CallScan (finished sessionID limit p mid)], [].
    cbn [calls]. rewrite app_nil_r. split; [reflexivity|].
    split; [apply resolve_calls_provider|].
    split; [right; eexists; reflexivity | left; reflexivity]. }
  destruct (Scan env (finished sessionID limit p mid)) as [rs|];
    [|eapply Hscan; eassumption].
  destruct (String.eqb (Type_ p) SearchTypeMMR); [|eapply Hscan; eassumption].
  match type of H with context [rerankMMR ?kept ?qe ?l ?k ?s] =>
    destruct (rerankMMR_run kept qe l k s) as [o Ho]; rewrite Ho in H
  end.
  injection H as _ <-. cbn [calls].
  exists (resolve_calls a p), [CallScan (finished sessionID limit p mid)].
  eexists. rewrite <- app_assoc. split; [reflexivity|].
  split; [apply resolve_calls_provider|]. split; [eauto|].
  right. split; [discriminate|]. eauto 6.
Qed.

(** X11. The embedding provider is consulted for queries with text only.
    For a query without text it is never called.  For a query with text it
    is asked for the model of document type "message" and then, if it has
    one, for the embedding of the query text alone. *)
Theorem provider_is_consulted_for_text_only (a : AppState) sessionID limit
    (p : MemorySearchPayload) out st :
  searchMessages (Some a) sessionID limit (start (Some p)) = (out, st) ->
  List.filter is_provider_call (calls st)
  = if String.eqb (Text p) "" then []
    else match GetEmbeddingModel env a "message" with
         | Err _ => [CallGetEmbeddingModel "message"]
         | Ok _ => [CallGetEmbeddingModel "message"; CallEmbedTexts "message" [Text p]]
         end.
Proof.
  intros H.
  assert (Htext : Text p <> "" -> nonempty p = true) by apply nonempty_of_text.
  assert (Hp : List.filter is_provider_call (resolve_calls a p)
               = if String.eqb (Text p) "" then []
                 else match GetEmbeddingModel env a "message" with
                      | Err _ => [CallGetEmbeddingModel "message"]
                      | Ok _ => [CallGetEmbeddingModel "message";
                                 CallEmbedTexts "message" [Text p]]
                      end).
  { rewrite resolve_calls_provider. unfold resolve_calls, embedding_calls.
    destruct (String.eqb (Text p) ""); [reflexivity|].
    cbn [negb]. destruct (GetEmbeddingModel env a "message"); reflexivity. }
  rewrite searchMessages_run in H. unfold search_run in H.
  destruct (nonempty p) eqn:Hne; cbn [negb] in H.
  2:{ injection H as _ <-. cbn [calls start List.filter].
      destruct (String.eqb (Text p) "") eqn:Ht; [reflexivity|].
      apply String.eqb_neq in Ht. specialize (Htext Ht). discriminate. }
  destruct (resolve a p) as [[qe|]|]; try (injection H as _ <-; exact Hp).
  destruct (filtered p (projected a p)) as [mid|]; [|injection H as _ <-; exact Hp].
  cbv zeta in H.
  destruct (Scan env (finished sessionID limit p mid)) as [rs|].
  2:{ injection H as _ <-. cbn [calls]. rewrite List.filter_app. cbn. now rewrite app_nil_r. }
  destruct (String.eqb (Type_ p) SearchTypeMMR).
  2:{ injection H as _ <-. cbn [calls]. rewrite List.filter_app. cbn. now rewrite app_nil_r. }
  match type of H with context [rerankMMR ?kept ?qe ?l ?k ?s] =>
    destruct (rerankMMR_run kept qe l k s) as [o Ho]; rewrite Ho in H
  end.
  injection H as _ <-. cbn [calls]. rewrite !List.filter_app. cbn. now rewrite !app_nil_r.
Qed.

Lemma filtered_frame_from (p : MemorySearchPayload) (q mid : SelectQuery) :
  Metadata p !! "where" = None \/ compiles_conditions_only ->
  filtered p q = Ok mid ->
  tables mid = tables q /\ joins mid = joins q.
Proof.
  intros Hframe. unfold filtered. destruct (0 <? _); [|intros [= <-]; auto].
  unfold compiled. destruct (Metadata p !! "where") as [w|].
  - destruct Hframe as [|Hparse]; [discriminate|].
    destruct (json_Marshal env w) as [j|]; [|discriminate].
    destruct (json_Unmarshal env j) as [jq|]; [|discriminate].
    intros [= <-].
    destruct (dated_fields (Metadata p) (parseJSONQuery env q jq false "m"))
      as (Ht & Hj & _).
    destruct (Hparse q jq false "m") as (Hpt & Hpj & _). cbv zeta in Hpt, Hpj.
    split; congruence.
  - intros [= <-]. destruct (dated_fields (Metadata p) q) as (Ht & Hj & _). auto.
Qed.

(** X12. Every query handed to the SQL engine reads from message_embedding
    joined to message on the message uuid, and selects the six message
    columns, then the stored embedding exactly when the search type is
    "mmr", then the distance column exactly when the query has text.  (When
    the metadata carries a filter tree, this relies on the filter compiler
    adding conditions only.) *)
Theorem projection_of_sent_query appState sessionID limit (p : MemorySearchPayload)
    out st dbq :
  Metadata p !! "where" = None \/ compiles_conditions_only ->
  searchMessages appState sessionID limit (start (Some p)) = (out, st) ->
  In (CallScan dbq) (calls st) ->
  tables dbq = [{| Query := "message_embedding AS me"; Args := [] |}]
  /\ joins dbq
     = [{| JoinExpr := {| Query := "JOIN message AS m"; Args := [] |};
           JoinOnConds := [WhereCond " AND "
                             {| Query := "me.message_uuid = m.uuid"; Args := [] |}] |}]
  /\ exists dist,
       columns dbq
       = [{| Query := "m.uuid AS message__uuid"; Args := [] |};
          {| Query := "m.created_at AS message__created_at"; Args := [] |};
          {| Query := "m.role AS message__role"; Args := [] |};
          {| Query := "m.content AS message__content"; Args := [] |};
          {| Query := "m.metadata AS message__metadata"; Args := [] |};
          {| Query := "m.token_count AS message__token_count"; Args := [] |}]
         ++ (if String.eqb (Type_ p) SearchTypeMMR
             then [{| Query := "me.embedding AS embedding"; Args := [] |}]
             else [])
         ++ dist
       /\ (Text p = "" -> dist = [])
       /\ (Text p <> "" ->
           exists queryEmbedding,
             dist = [{| Query := "(embedding <#> ?) * -1 AS dist";
                        Args := [ArgVector queryEmbedding] |}]).
Proof.
  intros Hframe H Hin.
  destruct (searchMessages_sent _ _ _ _ _ _ _ H Hin)
    as (a & p' & qe & mid & _ & [= <-] & _ & Hres & Hfil & -> & _).
  destruct (finished_fields sessionID limit p mid) as (Ht & Hj & Hc & _).
  destruct (filtered_frame _ _ _ Hframe Hfil) as [Hmc _].
  destruct (filtered_frame_from _ _ _ Hframe Hfil) as [Hmt Hmj].
  rewrite Ht, Hj, Hc, Hmt, Hmj, Hmc. clear Ht Hj Hc Hmt Hmj Hmc.
  unfold projected, resolve in *.
  destruct (String.eqb (Text p) "") eqn:Htext; cbn [negb] in *.
  - split; [|split].
    + unfold selected. destruct (String.eqb (Type_ p) SearchTypeMMR); reflexivity.
    + unfold selected. destruct (String.eqb (Type_ p) SearchTypeMMR); reflexivity.
    + exists []. split; [|split; [reflexivity|]].
      * unfold selected. destruct (String.eqb (Type_ p) SearchTypeMMR); reflexivity.
      * apply String.eqb_eq in Htext. congruence.
  - rewrite Hres. cbn [with_dist]. split; [|split].
    + unfold selected. destruct (String.eqb (Type_ p) SearchTypeMMR); reflexivity.
    + unfold selected. destruct (String.eqb (Type_ p) SearchTypeMMR); reflexivity.
    + exists [{| Query := "(embedding <#> ?) * -1 AS dist"; Args := [ArgVector qe] |}].
      split; [|split; [|eauto]].
      * unfold selected. destruct (String.eqb (Type_ p) SearchTypeMMR); reflexivity.
      * apply String.eqb_neq in Htext. congruence.
Qed.

(** X13. Metadata keys other than "where", "start_date" and "end_date" are
    ignored: a query whose metadata has none of the three reaches the SQL
    engine with the session and tombstone conditions and no other. *)
Theorem unrecognised_metadata_is_ignored appState sessionID limit
    (p : MemorySearchPayload) out st dbq :
  Metadata p !! "where" = None ->
  Metadata p !! "start_date" = None ->
  Metadata p !! "end_date" = None ->
  searchMessages appState sessionID limit (start (Some p)) = (out, st) ->
  In (CallScan dbq) (calls st) ->
  wheres dbq
  = [WhereCond " AND " {| Query := "m.session_id = ?"; Args := [ArgString sessionID] |};
     WhereCond " AND " {| Query := "m.deleted_at IS NULL"; Args := [] |}].
Proof.
  intros Hw Hs He H Hin.
  destruct (searchMessages_sent _ _ _ _ _ _ _ H Hin)
    as (a & p' & qe & mid & _ & [= <-] & _ & _ & Hfil & -> & _).
  destruct (finished_fields sessionID limit p mid) as (_ & _ & _ & Hwh & _).
  rewrite Hwh. destruct (projected_fields a p) as [Hpw _].
  assert (Hmid : wheres mid = []).
  { unfold filtered, compiled in Hfil. rewrite Hw in Hfil.
    destruct (0 <? _); injection Hfil as <-; [|exact Hpw].
    destruct (dated_fields (Metadata p) (projected a p)) as (_ & _ & _ & Hd & _).
    rewrite Hd, Hpw. unfold date_clauses. rewrite Hs, He. reflexivity. }
  rewrite Hmid. reflexivity.
Qed.

(** X14. Validation can be done in pieces and done twice: validating a
    concatenation gives the concatenation of the validated parts, and
    validating validated rows changes nothing. *)
Theorem validation_composes (r1 r2 : list MemorySearchResult) (m : gmap string Value) :
  filterValidMessageSearchResults (r1 ++ r2) m
  = filterValidMessageSearchResults r1 m ++ filterValidMessageSearchResults r2 m
  /\ filterValidMessageSearchResults (filterValidMessageSearchResults r1 m) m
     = filterValidMessageSearchResults r1 m.
Proof.
  unfold filterValidMessageSearchResults. rewrite !filter_loop. cbn [app]. split.
  - apply List.filter_app.
  - set (keep := fun r : MemorySearchResult => _).
    induction r1 as [|r r1 IH]; cbn [List.filter]; [reflexivity|].
    destruct (keep r) eqn:Hr; cbn [List.filter]; [rewrite Hr, IH|]; auto.
Qed.

(** X15. The default lambda is written into the payload before the query
    is executed: once an MMR search handed lambda 0 has sent its query, the
    payload carries the default lambda, whether the scan and the reranking
    then succeed or fail. *)
Theorem payload_is_defaulted_before_the_scan appState sessionID limit
    (p : MemorySearchPayload) out st dbq :
  Type_ p = SearchTypeMMR ->
  feq (MMRLambda p) zero = true ->
  searchMessages appState sessionID limit (start (Some p)) = (out, st) ->
  In (CallScan dbq) (calls st) ->
  query st = Some (set_MMRLambda p DefaultMMRLambda).
Proof.
  intros Hty Hz H Hin.
  destruct (searchMessages_sent _ _ _ _ _ _ _ H Hin)
    as (a & p' & qe & mid & _ & [= <-] & _ & _ & _ & _ & Hq & _).
  rewrite Hq. unfold defaulted. rewrite Hty, Hz. reflexivity.
Qed.

End Search.

(** ** A concrete set of collaborators

    A small world used to run the search on explicit inputs: an embedding
    provider that answers every text with the vector (1, 0), a store of
    three messages, an MMR routine that picks the first candidate, and a
    filter compiler that turns a node into one condition on its path. *)

Module Demo.

Definition AppState : Type := unit.
Definition EmbeddingModel : Type := string.
Definition Message : Type := string.
Definition Summary : Type := unit.
Definition Value : Type := string.

Definition Payload : Type := @MemorySearchPayload Value.
Definition Row : Type := @MemorySearchResult Message Summary Value.

Definition stored : list (Message * Vector) :=
  [ ("deadline is friday", [f32_one; zero]);
    ("lunch at noon", [zero; f32_one]);
    ("deadline moved", [f32_half; f32_half]) ].

Definition row_of (q : @SelectQuery Value) (m : Message * Vector) : Row :=
  {| Message_ := Some (fst m); Summary_ := None; ResultMetadata := ∅;
     Dist := match dist_of_row q (snd m) with Some d => d | None => S754_nan end;
     Embedding := snd m |}.

Definition pathOf (jq : JSONQuery) : string :=
  match jq with Build_JSONQuery JSONPath _ _ => JSONPath end.

Definition world (multiplier : Z) : @Collaborators AppState EmbeddingModel Message Summary Value :=
  {| GetEmbeddingModel := fun _ _ => Ok "text-embedding";
     EmbedTexts := fun _ _ _ texts => Ok (map (fun _ => [f32_one; zero]) texts);
     Scan := fun q => Ok (map (row_of q) stored);
     MaximalMarginalRelevance := fun _ embeddingList _ _ =>
       match embeddingList with
       | [] => Err (errors_New "no candidates")
       | _ :: _ => Ok [0]
       end;
     json_Marshal := fun _ => Ok [];
     json_Unmarshal := fun _ => Ok (Build_JSONQuery "$.tag" [] []);
     parseJSONQuery := fun qb jq _ _ =>
       Where "jsonb_path_exists(m.metadata, ?)" [ArgString (pathOf jq)] qb;
     DefaultMMRMultiplier := multiplier |}.

(** An MMR query that leaves lambda at its zero value. *)
Definition mmr_query : Payload :=
  {| Text := "project deadline"; Metadata := ∅; Type_ := SearchTypeMMR; MMRLambda := zero |}.

(** A similarity query on text alone. *)
Definition text_query : Payload :=
  {| Text := "project deadline"; Metadata := ∅; Type_ := SearchTypeSimilarity;
     MMRLambda := zero |}.

(** A metadata-only query with a filter tree and both date bounds. *)
Definition dated_query : Payload :=
  {| Text := "";
     Metadata := <["where" := "{jsonpath: $.tag}"]>
                   (<["start_date" := "2023-01-01"]> (<["end_date" := "2023-12-31"]> ∅));
     Type_ := SearchTypeSimilarity; MMRLambda := zero |}.

(** A query with neither text nor metadata. *)
Definition empty_query : Payload :=
  {| Text := ""; Metadata := ∅; Type_ := SearchTypeSimilarity; MMRLambda := zero |}.

Definition search (multiplier : Z) (q : option Payload) (limit : Z) :=
  searchMessages (world multiplier) (Some tt) "session-1" limit (start q).

End Demo.

(** ** The properties on explicit inputs *)

Module DemoRuns.

Import Demo.

(** The queries a run handed to the SQL engine, oldest first. *)
Definition scans (cs : list (@Call Value)) : list (@SelectQuery Value) :=
  flat_map (fun c => match c with CallScan q => [q] | _ => [] end) cs.

Definition sent (multiplier : Z) (q : option Payload) (limit : Z) : @SelectQuery Value :=
  hd NewSelect (scans (calls (snd (search multiplier q limit)))).

Ltac find_call := vm_compute; repeat (try (left; reflexivity); right).

End DemoRuns.

Import DemoRuns.

Lemma empty_query_is_invalid_witness :
  exists err,
    Demo.search 2 (Some Demo.empty_query) 5 = (Done (Err err), start (Some Demo.empty_query))
    /\ InvalidQueryError err = true
    /\ (Some tt <> None ->
        err = NewStorageError "empty query" (Some (errors_New "empty query"))).
Proof.
  apply (empty_query_is_invalid (Demo.world 2) (Some tt) "session-1" 5 Demo.empty_query).
  - reflexivity.
  - vm_compute. reflexivity.
Defined.

Lemma session_and_tombstone_constraints_witness :
  In (CallScan (sent 2 (Some Demo.dated_query) 0))
     (calls (snd (Demo.search 2 (Some Demo.dated_query) 0)))
  /\ exists earlier,
       wheres (sent 2 (Some Demo.dated_query) 0)
       = earlier ++
         [WhereCond " AND " {| Query := "m.session_id = ?"; Args := [ArgString "session-1"] |};
          WhereCond " AND " {| Query := "m.deleted_at IS NULL"; Args := [] |}].
Proof.
  split; [find_call|].
  apply (session_and_tombstone_constraints (Demo.world 2) (Some tt) "session-1"
           (Some Demo.dated_query) 0
           (fst (Demo.search 2 (Some Demo.dated_query) 0))
           (snd (Demo.search 2 (Some Demo.dated_query) 0))).
  - apply surjective_pairing.
  - find_call.
Defined.

Lemma rows_requested_witness :
  exists p,
    Some Demo.mmr_query = Some p
    /\ effective_limit 3 = (if 3 =? 0 then 10 else 3)
    /\ limit_ (sent 2 (Some Demo.mmr_query) 3)
       = to_int32 (if String.eqb (Type_ p) SearchTypeMMR
                   then int_mul (effective_limit 3) (DefaultMMRMultiplier (Demo.world 2))
                   else effective_limit 3)
    /\ (Type_ p <> SearchTypeMMR ->
        0 < effective_limit 3 < 2 ^ 31 ->
        limit_clause (sent 2 (Some Demo.mmr_query) 3) = Some (effective_limit 3))
    /\ (Type_ p = SearchTypeMMR ->
        0 < effective_limit 3 * DefaultMMRMultiplier (Demo.world 2) < 2 ^ 31 ->
        limit_clause (sent 2 (Some Demo.mmr_query) 3)
        = Some (effective_limit 3 * DefaultMMRMultiplier (Demo.world 2))).
Proof.
  apply (rows_requested (Demo.world 2) (Some tt) "session-1" (Some Demo.mmr_query) 3
           (fst (Demo.search 2 (Some Demo.mmr_query) 3))
           (snd (Demo.search 2 (Some Demo.mmr_query) 3))).
  - apply surjective_pairing.
  - find_call.
Defined.

(** C3. The claim does not hold of a requested limit of 2^31 or more.  A
    similarity search with limit 2^31 passes 2147483648 to bun, which keeps
    -2147483648 and renders no LIMIT clause: the SQL engine is asked for
    every row, not for 2^31 of them.  An MMR search with limit 2^62
    overflows on the product of line 76 (-2^63 under a multiplier of 2,
    -2^62 under a multiplier of 3); bun keeps 0 of either and again renders
    no LIMIT clause.  Within the range, limit 3 asks for 3 rows and for a
    pool of 6. *)
Lemma rows_requested_beyond_int32 :
  in_range (2 ^ 31) /\ in_range (2 ^ 62)
  /\ effective_limit (2 ^ 31) = 2 ^ 31
  /\ In (CallScan (sent 2 (Some Demo.text_query) (2 ^ 31)))
        (calls (snd (Demo.search 2 (Some Demo.text_query) (2 ^ 31))))
  /\ limit_ (sent 2 (Some Demo.text_query) (2 ^ 31)) = - 2 ^ 31
  /\ limit_clause (sent 2 (Some Demo.text_query) (2 ^ 31)) = None
  /\ In (CallScan (sent 2 (Some Demo.mmr_query) (2 ^ 62)))
        (calls (snd (Demo.search 2 (Some Demo.mmr_query) (2 ^ 62))))
  /\ int_mul (effective_limit (2 ^ 62)) 2 = - 2 ^ 63
  /\ limit_ (sent 2 (Some Demo.mmr_query) (2 ^ 62)) = 0
  /\ limit_clause (sent 2 (Some Demo.mmr_query) (2 ^ 62)) = None
  /\ int_mul (effective_limit (2 ^ 62)) 3 = - 2 ^ 62
  /\ limit_ (sent 3 (Some Demo.mmr_query) (2 ^ 62)) = 0
  /\ limit_clause (sent 3 (Some Demo.mmr_query) (2 ^ 62)) = None
  /\ limit_clause (sent 2 (Some Demo.text_query) 3) = Some 3
  /\ limit_clause (sent 2 (Some Demo.mmr_query) 3) = Some 6.
Proof.
  split; [unfold in_range, min_int, max_int; lia|].
  split; [unfold in_range, min_int, max_int; lia|].
  split; [vm_compute; reflexivity|].
  split; [find_call|].
  split; [vm_compute; reflexivity|].
  split; [vm_compute; reflexivity|].
  split; [find_call|].
  repeat split; vm_compute; reflexivity.
Qed.

Lemma sort_policy_witness :
  orders (sent 2 (Some Demo.dated_query) 3)
  = [if String.eqb (Text Demo.dated_query) "" then "m.created_at DESC" else "dist DESC"].
Proof.
  apply (sort_policy (Demo.world 2) (Some tt) "session-1" Demo.dated_query 3
           (fst (Demo.search 2 (Some Demo.dated_query) 3))
           (snd (Demo.search 2 (Some Demo.dated_query) 3))).
  - right. intros qb jq isOr tablePrefix. cbn. repeat split; reflexivity.
  - apply surjective_pairing.
  - find_call.
Defined.

(** The two sort keys, in full. *)
Lemma sort_policy_example :
  orders (sent 2 (Some Demo.text_query) 3) = ["dist DESC"]
  /\ orders (sent 2 (Some Demo.dated_query) 3) = ["m.created_at DESC"].
Proof. split; vm_compute; reflexivity. Qed.

Lemma date_bounds_witness :
  exists a p tree,
    Some tt = Some a /\ Some Demo.dated_query = Some p
    /\ ((Metadata p !! "where" = None /\ tree = projected (Demo.world 2) a p
         /\ wheres tree = [])
        \/ exists where_ j jq,
             Metadata p !! "where" = Some where_
             /\ json_Marshal (Demo.world 2) where_ = Ok j
             /\ json_Unmarshal (Demo.world 2) j = Ok jq
             /\ tree = parseJSONQuery (Demo.world 2) (projected (Demo.world 2) a p) jq false "m")
    /\ wheres (sent 2 (Some Demo.dated_query) 0)
       = wheres tree
         ++ match Metadata p !! "start_date" with
            | Some startDate =>
                [WhereCond " AND "
                   {| Query := "m.created_at >= ?"; Args := [ArgValue startDate] |}]
            | None => []
            end
         ++ match Metadata p !! "end_date" with
            | Some endDate =>
                [WhereCond " AND "
                   {| Query := "m.created_at <= ?"; Args := [ArgValue endDate] |}]
            | None => []
            end
         ++ [session_clause "session-1"; deleted_clause]
    /\ (forall where_,
          Metadata p !! "where" = Some where_ ->
          exists j jq,
            json_Marshal (Demo.world 2) where_ = Ok j
            /\ json_Unmarshal (Demo.world 2) j = Ok jq
            /\ wheres (sent 2 (Some Demo.dated_query) 0)
               = wheres (parseJSONQuery (Demo.world 2) (projected (Demo.world 2) a p)
                           jq false "m")
                 ++ date_clauses (Metadata p)
                 ++ [session_clause "session-1"; deleted_clause]).
Proof.
  apply (date_bounds (Demo.world 2) (Some tt) "session-1" (Some Demo.dated_query) 0
           (fst (Demo.search 2 (Some Demo.dated_query) 0))
           (snd (Demo.search 2 (Some Demo.dated_query) 0))).
  - apply surjective_pairing.
  - find_call.
Defined.

(** The conditions of the dated query, in full. *)
Lemma date_bounds_example :
  wheres (sent 2 (Some Demo.dated_query) 0)
  = [WhereCond " AND " {| Query := "jsonb_path_exists(m.metadata, ?)";
                          Args := [ArgString "$.tag"] |};
     WhereCond " AND " {| Query := "m.created_at >= ?"; Args := [ArgValue "2023-01-01"] |};
     WhereCond " AND " {| Query := "m.created_at <= ?"; Args := [ArgValue "2023-12-31"] |};
     WhereCond " AND " {| Query := "m.session_id = ?"; Args := [ArgString "session-1"] |};
     WhereCond " AND " {| Query := "m.deleted_at IS NULL"; Args := [] |}].
Proof. vm_compute. reflexivity. Qed.

Lemma distance_is_inner_product_witness :
  exists a model queryEmbedding rest,
    Some tt = Some a
    /\ GetEmbeddingModel (Demo.world 2) a "message" = Ok model
    /\ EmbedTexts (Demo.world 2) a model "message" [Text Demo.text_query]
       = Ok (queryEmbedding :: rest)
    /\ forall embedding,
         dist_of_row (sent 2 (Some Demo.text_query) 3) embedding
         = Some (f64_mul (vector_negative_inner_product embedding queryEmbedding)
                         f64_minus_one)
         /\ (f64_valid (inner_product embedding queryEmbedding) = true ->
             dist_of_row (sent 2 (Some Demo.text_query) 3) embedding
             = Some (inner_product embedding queryEmbedding)).
Proof.
  apply (distance_is_inner_product (Demo.world 2) (Some tt) "session-1"
           Demo.text_query 3
           (fst (Demo.search 2 (Some Demo.text_query) 3))
           (snd (Demo.search 2 (Some Demo.text_query) 3))).
  - left. vm_compute. reflexivity.
  - apply surjective_pairing.
  - find_call.
  - discriminate.
Defined.

(** C4 as stated fails on the sign.  For the text query the provider
    resolves the vector (1, 0); on the stored embedding (1, 0), whose inner
    product with it is 1, the distance column of the query that is sent
    evaluates to 1, while the negated inner product is -1. *)
Lemma distance_is_not_the_negated_inner_product :
  In (CallScan (sent 2 (Some Demo.text_query) 3))
     (calls (snd (Demo.search 2 (Some Demo.text_query) 3)))
  /\ EmbedTexts (Demo.world 2) tt "text-embedding" "message" [Text Demo.text_query]
     = Ok [[f32_one; zero]]
  /\ inner_product [f32_one; zero] [f32_one; zero] = f64_one
  /\ dist_of_row (sent 2 (Some Demo.text_query) 3) [f32_one; zero] = Some f64_one
  /\ f64_opp (inner_product [f32_one; zero] [f32_one; zero]) = f64_minus_one
  /\ feq f64_one f64_minus_one = false
  /\ dist_of_row (sent 2 (Some Demo.text_query) 3) [f32_one; zero]
     <> Some (f64_opp (inner_product [f32_one; zero] [f32_one; zero])).
Proof.
  split; [find_call|].
  repeat split; try (vm_compute; reflexivity).
  vm_compute. discriminate.
Qed.


Lemma payload_after_search_witness :
  exists p',
    query (snd (Demo.search 2 (Some Demo.mmr_query) 3)) = Some p'
    /\ Text p' = Text Demo.mmr_query /\ Metadata p' = Metadata Demo.mmr_query
    /\ Type_ p' = Type_ Demo.mmr_query
    /\ (MMRLambda p' = MMRLambda Demo.mmr_query
        \/ (Type_ Demo.mmr_query = SearchTypeMMR
            /\ feq (MMRLambda Demo.mmr_query) zero = true
            /\ MMRLambda p' = DefaultMMRLambda
            /\ exists dbq,
                 In (CallScan dbq) (calls (snd (Demo.search 2 (Some Demo.mmr_query) 3)))))
    /\ (Type_ Demo.mmr_query <> SearchTypeMMR \/ feq (MMRLambda Demo.mmr_query) zero = false ->
        p' = Demo.mmr_query)
    /\ ((forall dbq,
            ~ In (CallScan dbq) (calls (snd (Demo.search 2 (Some Demo.mmr_query) 3)))) ->
        p' = Demo.mmr_query)
    /\ ((exists dbq,
            In (CallScan dbq) (calls (snd (Demo.search 2 (Some Demo.mmr_query) 3)))) ->
        Type_ Demo.mmr_query = SearchTypeMMR ->
        feq (MMRLambda Demo.mmr_query) zero = true ->
        p' = set_MMRLambda Demo.mmr_query DefaultMMRLambda
        /\ MMRLambda p' = DefaultMMRLambda).
Proof.
  apply (payload_after_search (Demo.world 2) (Some tt) "session-1" 3 Demo.mmr_query
           (fst (Demo.search 2 (Some Demo.mmr_query) 3))).
  apply surjective_pairing.
Defined.

(** C9 as stated fails: the search writes through the pointer it was
    handed.  The MMR query goes in with lambda 0 and comes out with lambda
    one half. *)
Lemma payload_is_overwritten :
  MMRLambda Demo.mmr_query = zero
  /\ query (snd (Demo.search 2 (Some Demo.mmr_query) 3))
     = Some (set_MMRLambda Demo.mmr_query f32_half)
  /\ query (snd (Demo.search 2 (Some Demo.mmr_query) 3)) <> Some Demo.mmr_query.
Proof.
  split; [reflexivity|]. split; [vm_compute; reflexivity|].
  vm_compute. discriminate.
Qed.

(** ** Failing collaborators

    The world of [Demo] with one collaborator at a time replaced by one
    that fails, and a query whose metadata has no key the search knows. *)

Module Faults.

Import Demo.

Definition World : Type := @Collaborators AppState EmbeddingModel Message Summary Value.

(** No embedding model is configured. *)
Definition provider_down : World :=
  {| GetEmbeddingModel := fun _ _ => Err (ForeignError "no embedding model");
     EmbedTexts := EmbedTexts (world 2);
     Scan := Scan (world 2);
     MaximalMarginalRelevance := MaximalMarginalRelevance (world 2);
     json_Marshal := json_Marshal (world 2);
     json_Unmarshal := json_Unmarshal (world 2);
     parseJSONQuery := parseJSONQuery (world 2);
     DefaultMMRMultiplier := 2 |}.

(** The provider answers without an error and without a vector. *)
Definition no_vector : World :=
  {| GetEmbeddingModel := GetEmbeddingModel (world 2);
     EmbedTexts := fun _ _ _ _ => Ok [];
     Scan := Scan (world 2);
     MaximalMarginalRelevance := MaximalMarginalRelevance (world 2);
     json_Marshal := json_Marshal (world 2);
     json_Unmarshal := json_Unmarshal (world 2);
     parseJSONQuery := parseJSONQuery (world 2);
     DefaultMMRMultiplier := 2 |}.


(** The SQL engine is unreachable. *)
Definition scan_down : World :=
  {| GetEmbeddingModel := GetEmbeddingModel (world 2);
     EmbedTexts := EmbedTexts (world 2);
     Scan := fun _ => Err (ForeignError "connection refused");
     MaximalMarginalRelevance := MaximalMarginalRelevance (world 2);
     json_Marshal := json_Marshal (world 2);
     json_Unmarshal := json_Unmarshal (world 2);
     parseJSONQuery := parseJSONQuery (world 2);
     DefaultMMRMultiplier := 2 |}.

(** A metadata-only query whose one key is none of "where", "start_date"
    and "end_date". *)
Definition tagged_query : Payload :=
  {| Text := ""; Metadata := <["topic" := "travel"]> ∅;
     Type_ := SearchTypeSimilarity; MMRLambda := zero |}.

Definition search_in (w : World) (q : Payload) (limit : Z) :=
  searchMessages w (Some tt) "session-1" limit (start (Some q)).

Definition sent_in (w : World) (q : Payload) (limit : Z) : @SelectQuery Value :=
  hd NewSelect (scans (calls (snd (search_in w q limit)))).

End Faults.

Lemma embedding_failure_stops_search_witness :
  exists message st,
    Faults.search_in Faults.provider_down Demo.text_query 3
    = (Done (Err (NewStorageError "error adding vector column"
                    (Some (NewStorageError message
                             (Some (ForeignError "no embedding model")))))), st)
    /\ (message = "failed to get message embedding model"
        \/ message = "failed to embed query")
    /\ query st = Some Demo.text_query
    /\ (forall dbq, ~ In (CallScan dbq) (calls st))
    /\ (forall qe embs lambda k, ~ In (CallMMR qe embs lambda k) (calls st)).
Proof.
  apply (embedding_failure_stops_search Faults.provider_down tt "session-1" 3
           Demo.text_query (ForeignError "no embedding model")).
  - discriminate.
  - left. reflexivity.
Defined.

Lemma empty_embedding_panics_witness :
  exists st,
    Faults.search_in Faults.no_vector Demo.text_query 3 = (Panic "index out of range", st)
    /\ query st = Some Demo.text_query
    /\ (forall dbq, ~ In (CallScan dbq) (calls st)).
Proof.
  apply (empty_embedding_panics Faults.no_vector tt "session-1" 3 Demo.text_query
           "text-embedding").
  - discriminate.
  - reflexivity.
  - reflexivity.
Defined.


Lemma scan_failure_is_reported_witness :
  fst (Faults.search_in Faults.scan_down Demo.mmr_query 3)
  = Done (Err (NewStorageError "memory searchMessages failed"
                 (Some (ForeignError "connection refused"))))
  /\ (forall qe embs lambda k,
         ~ In (CallMMR qe embs lambda k)
              (calls (snd (Faults.search_in Faults.scan_down Demo.mmr_query 3)))).
Proof.
  apply (scan_failure_is_reported Faults.scan_down (Some tt) "session-1" 3 Demo.mmr_query
           (fst (Faults.search_in Faults.scan_down Demo.mmr_query 3))
           (snd (Faults.search_in Faults.scan_down Demo.mmr_query 3))
           (Faults.sent_in Faults.scan_down Demo.mmr_query 3)).
  - apply surjective_pairing.
  - find_call.
  - reflexivity.
Defined.

Lemma similarity_search_returns_validated_rows_witness :
  fst (Demo.search 2 (Some Demo.text_query) 3)
  = Done (Ok (filterValidMessageSearchResults
                (map (Demo.row_of (sent 2 (Some Demo.text_query) 3)) Demo.stored)
                (Metadata Demo.text_query)))
  /\ (forall qe embs lambda k,
         ~ In (CallMMR qe embs lambda k) (calls (snd (Demo.search 2 (Some Demo.text_query) 3))))
  /\ query (snd (Demo.search 2 (Some Demo.text_query) 3)) = Some Demo.text_query
  /\ (Metadata Demo.text_query = ∅ ->
      forall row,
        In row (filterValidMessageSearchResults
                  (map (Demo.row_of (sent 2 (Some Demo.text_query) 3)) Demo.stored)
                  (Metadata Demo.text_query)) ->
        Dist row <> S754_nan).
Proof.
  apply (similarity_search_returns_validated_rows (Demo.world 2) (Some tt) "session-1" 3
           Demo.text_query
           (fst (Demo.search 2 (Some Demo.text_query) 3))
           (snd (Demo.search 2 (Some Demo.text_query) 3))
           (sent 2 (Some Demo.text_query) 3)).
  - apply surjective_pairing.
  - discriminate.
  - find_call.
  - reflexivity.
Defined.

(** The rows a run returned, none if it returned an error or panicked. *)
Definition returned_rows {Message Summary Value : Type}
    (out : outcome (result (list (@MemorySearchResult Message Summary Value))))
  : list (@MemorySearchResult Message Summary Value) :=
  match out with
  | Done (Ok rows) => rows
  | _ => []
  end.

Lemma mmr_search_returns_validated_rows_witness :
  exists dbq rs qe lambda idxs,
    In (CallScan dbq) (calls (snd (Demo.search 2 (Some Demo.mmr_query) 3)))
    /\ Scan (Demo.world 2) dbq = Ok rs
    /\ MaximalMarginalRelevance (Demo.world 2) qe
         (map Embedding (filterValidMessageSearchResults rs (Metadata Demo.mmr_query)))
         lambda (effective_limit 3) = Ok idxs
    /\ length (returned_rows (fst (Demo.search 2 (Some Demo.mmr_query) 3))) = length idxs
    /\ Forall2 (fun idx row =>
                  filterValidMessageSearchResults rs (Metadata Demo.mmr_query)
                    !! Z.to_nat idx = Some row)
               idxs (returned_rows (fst (Demo.search 2 (Some Demo.mmr_query) 3)))
    /\ (forall row,
           In row (returned_rows (fst (Demo.search 2 (Some Demo.mmr_query) 3))) ->
           In row rs /\ (Dist row <> S754_nan \/ Metadata Demo.mmr_query <> ∅)).
Proof.
  apply (mmr_search_returns_validated_rows (Demo.world 2) (Some tt) "session-1" 3
           Demo.mmr_query
           (returned_rows (fst (Demo.search 2 (Some Demo.mmr_query) 3)))
           (snd (Demo.search 2 (Some Demo.mmr_query) 3))).
  - vm_compute. reflexivity.
  - reflexivity.
Defined.

Lemma mmr_call_arguments_witness :
  Type_ Demo.mmr_query = SearchTypeMMR
  /\ 3 = effective_limit 3
  /\ f32_half
     = (if feq (MMRLambda Demo.mmr_query) zero
        then DefaultMMRLambda else MMRLambda Demo.mmr_query)
  /\ (Text Demo.mmr_query = "" -> [f32_one; zero] = [])
  /\ exists dbq rs,
       In (CallScan dbq) (calls (snd (Demo.search 2 (Some Demo.mmr_query) 3)))
       /\ Scan (Demo.world 2) dbq = Ok rs
       /\ map snd Demo.stored
          = map Embedding (filterValidMessageSearchResults rs (Metadata Demo.mmr_query)).
Proof.
  apply (mmr_call_arguments (Demo.world 2) (Some tt) "session-1" 3 Demo.mmr_query
           (fst (Demo.search 2 (Some Demo.mmr_query) 3))
           (snd (Demo.search 2 (Some Demo.mmr_query) 3))
           [f32_one; zero] (map snd Demo.stored) f32_half 3).
  - apply surjective_pairing.
  - find_call.
Defined.

Lemma search_returns_without_panic_witness :
  exists r st, Demo.search 2 (Some Demo.mmr_query) 3 = (Done r, st).
Proof.
  apply (search_returns_without_panic (Demo.world 2) (Some tt) "session-1" 3
           (Some Demo.mmr_query)).
  - intros a model texts e He. cbn in He. injection He as <-. apply length_map.
  - intros qe embs lambda k idxs Hm. cbn in Hm.
    destruct embs as [|e embs]; [discriminate|]. injection Hm as <-.
    constructor; [cbn [length]; lia | constructor].
Defined.

Lemma collaborators_are_called_in_order_witness :
  exists provider scans reranks,
    calls (snd (Demo.search 2 (Some Demo.mmr_query) 3)) = provider ++ scans ++ reranks
    /\ List.filter is_provider_call provider = provider
    /\ (scans = [] \/ exists dbq, scans = [CallScan dbq])
    /\ (reranks = []
        \/ (scans <> [] /\ exists qe embs lambda k, reranks = [CallMMR qe embs lambda k])).
Proof.
  apply (collaborators_are_called_in_order (Demo.world 2) (Some tt) "session-1" 3
           (Some Demo.mmr_query) (fst (Demo.search 2 (Some Demo.mmr_query) 3))).
  apply surjective_pairing.
Defined.

Lemma provider_is_consulted_for_text_only_witness :
  List.filter is_provider_call (calls (snd (Demo.search 2 (Some Demo.text_query) 3)))
  = if String.eqb (Text Demo.text_query) "" then []
    else match GetEmbeddingModel (Demo.world 2) tt "message" with
         | Err _ => [CallGetEmbeddingModel "message"]
         | Ok _ => [CallGetEmbeddingModel "message";
                    CallEmbedTexts "message" [Text Demo.text_query]]
         end.
Proof.
  apply (provider_is_consulted_for_text_only (Demo.world 2) tt "session-1" 3
           Demo.text_query (fst (Demo.search 2 (Some Demo.text_query) 3))).
  apply surjective_pairing.
Defined.

Lemma projection_of_sent_query_witness :
  tables (sent 2 (Some Demo.mmr_query) 3)
  = [{| Query := "message_embedding AS me"; Args := [] |}]
  /\ joins (sent 2 (Some Demo.mmr_query) 3)
     = [{| JoinExpr := {| Query := "JOIN message AS m"; Args := [] |};
           JoinOnConds := [WhereCond " AND "
                             {| Query := "me.message_uuid = m.uuid"; Args := [] |}] |}]
  /\ exists dist,
       columns (sent 2 (Some Demo.mmr_query) 3)
       = [{| Query := "m.uuid AS message__uuid"; Args := [] |};
          {| Query := "m.created_at AS message__created_at"; Args := [] |};
          {| Query := "m.role AS message__role"; Args := [] |};
          {| Query := "m.content AS message__content"; Args := [] |};
          {| Query := "m.metadata AS message__metadata"; Args := [] |};
          {| Query := "m.token_count AS message__token_count"; Args := [] |}]
         ++ (if String.eqb (Type_ Demo.mmr_query) SearchTypeMMR
             then [{| Query := "me.embedding AS embedding"; Args := [] |}]
             else [])
         ++ dist
       /\ (Text Demo.mmr_query = "" -> dist = [])
       /\ (Text Demo.mmr_query <> "" ->
           exists queryEmbedding,
             dist = [{| Query := "(embedding <#> ?) * -1 AS dist";
                        Args := [ArgVector queryEmbedding] |}]).
Proof.
  apply (projection_of_sent_query (Demo.world 2) (Some tt) "session-1" 3 Demo.mmr_query
           (fst (Demo.search 2 (Some Demo.mmr_query) 3))
           (snd (Demo.search 2 (Some Demo.mmr_query) 3))).
  - left. vm_compute. reflexivity.
  - apply surjective_pairing.
  - find_call.
Defined.

Lemma unrecognised_metadata_is_ignored_witness :
  wheres (Faults.sent_in (Demo.world 2) Faults.tagged_query 0)
  = [WhereCond " AND " {| Query := "m.session_id = ?"; Args := [ArgString "session-1"] |};
     WhereCond " AND " {| Query := "m.deleted_at IS NULL"; Args := [] |}].
Proof.
  apply (unrecognised_metadata_is_ignored (Demo.world 2) (Some tt) "session-1" 0
           Faults.tagged_query
           (fst (Faults.search_in (Demo.world 2) Faults.tagged_query 0))
           (snd (Faults.search_in (Demo.world 2) Faults.tagged_query 0))).
  - vm_compute. reflexivity.
  - vm_compute. reflexivity.
  - vm_compute. reflexivity.
  - apply surjective_pairing.
  - find_call.
Defined.

Lemma payload_is_defaulted_before_the_scan_witness :
  fst (Faults.search_in Faults.scan_down Demo.mmr_query 3)
  = Done (Err (NewStorageError "memory searchMessages failed"
                 (Some (ForeignError "connection refused"))))
  /\ query (snd (Faults.search_in Faults.scan_down Demo.mmr_query 3))
     = Some (set_MMRLambda Demo.mmr_query DefaultMMRLambda).
Proof.
  split; [vm_compute; reflexivity|].
  apply (payload_is_defaulted_before_the_scan Faults.scan_down (Some tt) "session-1" 3
           Demo.mmr_query
           (fst (Faults.search_in Faults.scan_down Demo.mmr_query 3))
           (snd (Faults.search_in Faults.scan_down Demo.mmr_query 3))
           (Faults.sent_in Faults.scan_down Demo.mmr_query 3)).
  - reflexivity.
  - reflexivity.
  - apply surjective_pairing.
  - find_call.
Defined.
